(** * The chat dispatch of the assistant application

    A shallow embedding of [ChatViewSet.send_message]
    (apps/assistant/views.py) and the properties of its provider
    selection, context assembly, URL normalisation, persistence and
    error mapping. *)

From Stdlib Require Import Ascii String QArith.
From stdpp Require Import base list sorting strings pretty.

Local Set Warnings "-register-all".
Local Open Scope Z_scope.
Local Open Scope string_scope.
Local Open Scope list_scope.

(** ** Python values

    The objects the view handles are dynamically typed: what
    [response.json()] decodes, and what is then assigned to model
    attributes.  JSON numbers are restricted to integers. *)

Inductive value :=
  | VNone
  | VBool (b : bool)
  | VInt (z : Z)
  | VStr (s : string)
  | VList (l : list value)
  | VDict (d : list (string * value)).

(** Python truth value: [None], [False], [0] and empty containers are
    false. *)
Definition truthy (v : value) : bool :=
  match v with
  | VNone => false
  | VBool b => b
  | VInt z => negb (Z.eqb z 0)
  | VStr s => negb (String.eqb s "")
  | VList l => match l with [] => false | _ => true end
  | VDict d => match d with [] => false | _ => true end
  end.

(** Exceptions, by the classes the handlers of the view tell apart.
    [Timeout] stands for [requests.exceptions.Timeout] and its
    subclasses, [RequestException] for the other subclasses of
    [requests.exceptions.RequestException], [IntegrityError] for
    [django.db.IntegrityError], [OtherException] for any other subclass
    of [Exception]. *)
Inductive exn_class :=
  | DoesNotExist
  | ValueError
  | TypeError
  | KeyError
  | IndexError
  | AttributeError
  | IntegrityError
  | Timeout
  | RequestException
  | OtherException.

Record exn := Exn { exn_cls : exn_class; exn_str : string }.

Global Instance exn_class_eq_dec : EqDecision exn_class.
Proof. solve_decision. Defined.

Definition is_Timeout (e : exn) : bool :=
  bool_decide (exn_cls e = Timeout).

(** [Timeout] is a subclass of [RequestException]. *)
Definition is_RequestException (e : exn) : bool :=
  bool_decide (exn_cls e = Timeout) || bool_decide (exn_cls e = RequestException).

Definition is_DoesNotExist (e : exn) : bool :=
  bool_decide (exn_cls e = DoesNotExist).

Definition is_ValueError (e : exn) : bool :=
  bool_decide (exn_cls e = ValueError).

(** *** Strings *)

Fixpoint string_rev_acc (s acc : string) : string :=
  match s with
  | EmptyString => acc
  | String c s' => string_rev_acc s' (String c acc)
  end.

Definition string_rev (s : string) : string := string_rev_acc s "".

Fixpoint lstrip_char (c : ascii) (s : string) : string :=
  match s with
  | EmptyString => EmptyString
  | String a s' => if Ascii.eqb a c then lstrip_char c s' else s
  end.

(** [s.rstrip(c)] for a one-character argument. *)
Definition rstrip (c : ascii) (s : string) : string :=
  string_rev (lstrip_char c (string_rev s)).

Fixpoint startswith (s p : string) : bool :=
  match p, s with
  | EmptyString, _ => true
  | String _ _, EmptyString => false
  | String a p', String b s' => Ascii.eqb a b && startswith s' p'
  end.

(** [s.endswith(suf)] *)
Definition endswith (s suf : string) : bool :=
  startswith (string_rev s) (string_rev suf).

(** [sub in s] on two strings *)
Fixpoint str_contains (s sub : string) : bool :=
  startswith s sub ||
  match s with
  | EmptyString => false
  | String _ s' => str_contains s' sub
  end.

Fixpoint repeat_char (c : ascii) (n : nat) : string :=
  match n with
  | O => EmptyString
  | S n' => String c (repeat_char c n')
  end.

(** *** Operations on values, with the exceptions Python raises

    The messages are those of CPython 3.11 and later. *)

Definition result (A : Type) : Type := exn + A.

(** [type(v).__name__] *)
Definition type_name (v : value) : string :=
  match v with
  | VNone => "NoneType"
  | VBool _ => "bool"
  | VInt _ => "int"
  | VStr _ => "str"
  | VList _ => "list"
  | VDict _ => "dict"
  end.

(** [v is None] *)
Definition is_None (v : value) : bool :=
  match v with
  | VNone => true
  | _ => false
  end.

Fixpoint assoc_get (d : list (string * value)) (k : string) : option value :=
  match d with
  | [] => None
  | (k', v) :: d' => if String.eqb k' k then Some v else assoc_get d' k
  end.

Definition value_is_str (k : string) (v : value) : bool :=
  match v with
  | VStr s => String.eqb s k
  | _ => false
  end.

(** [k in v] for a string [k] *)
Definition py_contains (k : string) (v : value) : result bool :=
  match v with
  | VDict d => inr (bool_decide (is_Some (assoc_get d k)))
  | VList l => inr (existsb (value_is_str k) l)
  | VStr s => inr (str_contains s k)
  | _ => inl (Exn TypeError
                ("argument of type '" +:+ type_name v +:+ "' is not iterable"))
  end.

(** [len(v)] *)
Definition py_len (v : value) : result nat :=
  match v with
  | VStr s => inr (String.length s)
  | VList l => inr (length l)
  | VDict d => inr (length d)
  | _ => inl (Exn TypeError
                ("object of type '" +:+ type_name v +:+ "' has no len()"))
  end.

(** [v[k]] for a string [k]; the keys the view uses are plain words,
    whose [repr] is the word between single quotes. *)
Definition py_getitem_str (v : value) (k : string) : result value :=
  match v with
  | VDict d =>
      match assoc_get d k with
      | Some x => inr x
      | None => inl (Exn KeyError ("'" +:+ k +:+ "'"))
      end
  | VStr _ => inl (Exn TypeError "string indices must be integers, not 'str'")
  | VList _ =>
      inl (Exn TypeError "list indices must be integers or slices, not str")
  | _ => inl (Exn TypeError ("'" +:+ type_name v +:+ "' object is not subscriptable"))
  end.

(** [v[0]]; the keys of a decoded JSON object are strings, so a dict
    has no key [0]. *)
Definition py_getitem_0 (v : value) : result value :=
  match v with
  | VList l =>
      match l with
      | x :: _ => inr x
      | [] => inl (Exn IndexError "list index out of range")
      end
  | VStr s =>
      match s with
      | String c _ => inr (VStr (String c EmptyString))
      | EmptyString => inl (Exn IndexError "string index out of range")
      end
  | VDict _ => inl (Exn KeyError "0")
  | _ => inl (Exn TypeError ("'" +:+ type_name v +:+ "' object is not subscriptable"))
  end.

(** [v.get(k, dflt)] *)
Definition py_get (v : value) (k : string) (dflt : value) : result value :=
  match v with
  | VDict d =>
      match assoc_get d k with
      | Some x => inr x
      | None => inr dflt
      end
  | _ => inl (Exn AttributeError
                ("'" +:+ type_name v +:+ "' object has no attribute 'get'"))
  end.

(** ** Data model

    The rows of the four tables the view reads and writes.  A column of
    text holds [VNone] or a [VStr]; what is written to one from a
    decoded body goes through [column_text] below. *)

Record AssistantSession := {
  session_pk : Z;
  session_user : Z;
  session_id : string;
  session_conversation_id : value
}.

Record ChatMessage := {
  message_pk : Z;
  message_session : Z;
  message_role : string;
  message_content : value;
  message_conversation_id : value;
  message_message_id : value;
  message_created_at : Z
}.

Record AIModelConfig := {
  ai_pk : Z;
  ai_name : string;
  ai_api_key : string;
  ai_base_url : string;
  ai_model_name : string;
  ai_temperature : Q;
  ai_max_tokens : Z;
  ai_is_active : bool
}.

Record DifyConfig := {
  dify_pk : Z;
  dify_api_key : string;
  dify_api_url : string;
  dify_is_active : bool
}.

(** Each table is the list of its rows in the order an unordered query
    returns them; primary keys are unique in a table. *)
Record database := {
  sessions : list AssistantSession;
  chat_messages : list ChatMessage;
  ai_configs : list AIModelConfig;
  dify_configs : list DifyConfig
}.

(** ** Requests and responses *)

(** An identifier parameter of the request body, which may be any JSON
    value: absent (or null), a boolean, a number (an integer here), text,
    an array or an object. *)
Inductive ident :=
  | IdNone
  | IdBool (b : bool)
  | IdInt (z : Z)
  | IdStr (s : string)
  | IdArray (l : list value)
  | IdObject (d : list (string * value)).

Definition ident_truthy (i : ident) : bool :=
  match i with
  | IdNone => false
  | IdBool b => b
  | IdInt z => negb (Z.eqb z 0)
  | IdStr s => negb (String.eqb s "")
  | IdArray l => match l with [] => false | _ => true end
  | IdObject d => match d with [] => false | _ => true end
  end.


Definition text_truthy (t : option string) : bool :=
  match t with
  | None => false
  | Some s => negb (String.eqb s "")
  end.

(** A request whose body is a JSON object: the id of the sender, what
    [request.data.get] gives for the session id and the message, text
    when they are present, and for the two references. *)
Record request := {
  req_user : Z;
  req_session_id : option string;
  req_message : option string;
  req_model_id : ident;
  req_dify_config_id : ident
}.

Inductive response_data :=
  | ErrorData (error : string) (detail : option string)
  | ReplyData (user_message assistant_message : ChatMessage)
              (conversation_id : value) (used_model : string).

Record response := Response { resp_data : response_data; resp_status : Z }.

Definition HTTP_200_OK : Z := 200.
Definition HTTP_400_BAD_REQUEST : Z := 400.
Definition HTTP_404_NOT_FOUND : Z := 404.
Definition HTTP_408_REQUEST_TIMEOUT : Z := 408.
Definition HTTP_500_INTERNAL_SERVER_ERROR : Z := 500.

(** ** The outbound call *)

Record chat_entry := { entry_role : string; entry_content : value }.

Record llm_payload := {
  pl_model : string;
  pl_messages : list chat_entry;
  pl_temperature : Q;
  pl_max_tokens : Z;
  pl_stream : bool
}.

Record dify_payload := {
  dp_inputs : list (string * value);
  dp_query : string;
  dp_user : string;
  dp_response_mode : string;
  dp_conversation_id : option value
}.

Inductive json_body :=
  | LLMBody (p : llm_payload)
  | DifyBody (p : dify_payload).

Record outbound := {
  out_url : string;
  out_authorization : string;
  out_json : json_body;
  out_timeout : Z
}.

(** What [requests.post] hands back: the status, the raw text, and what
    [response.json()] gives, the decoded body or the exception it
    raises. *)
Record http_response := {
  status_code : Z;
  text : string;
  json : result value
}.

(** The environment of one request: the clock when the user's row is
    inserted, the clock when the assistant's row is inserted, Python's
    [str()] on the values that are not text, and the upstream, which
    answers a call with a response or with the exception [requests.post]
    raises. *)
Record env := {
  env_now : Z;
  env_later : Z;
  env_str : value -> string;
  env_upstream : outbound -> result http_response
}.

(** Modelled from the spec: the models of the application are not part of
    the sources at hand.  By section 3 of the specification the content
    of a message is text and is not nullable, while its provider message
    id, its provider conversation id and the conversation id of a session
    are nullable text.  What the ORM writes to a column of text is null
    for [None], the text itself for text, and [str(v)] for any other
    value [v]. *)
Definition column_text (e : env) (v : value) : value :=
  match v with
  | VNone => VNone
  | VStr s => VStr s
  | _ => VStr (env_str e v)
  end.

(** Modelled from the spec: the exception the database raises for a row
    whose content is null; its message is the one of SQLite. *)
Definition null_content : exn :=
  Exn IntegrityError "NOT NULL constraint failed: assistant_chatmessage.content".

(** ** State and exceptions

    The effects of the view in the order it performs them. *)
Inductive event :=
  | EvCreate (m : ChatMessage)
  | EvSave (s : AssistantSession)
  | EvPost (o : outbound).

Record world := World { db : database; log : list event }.

Definition M (A : Type) : Type := world -> result A * world.

Definition ret {A} (a : A) : M A := fun w => (inr a, w).

Definition raise {A} (e : exn) : M A := fun w => (inl e, w).

Definition bind {A B} (m : M A) (k : A -> M B) : M B :=
  fun w =>
    match m w with
    | (inr a, w') => k a w'
    | (inl e, w') => (inl e, w')
    end.

(** [try: m except ... as e: h e]; a handler that does not match
    re-raises. *)
Definition try_except {A} (m : M A) (h : exn -> M A) : M A :=
  fun w =>
    match m w with
    | (inr a, w') => (inr a, w')
    | (inl e, w') => h e w'
    end.

Definition lift {A} (r : result A) : M A :=
  match r with
  | inr a => ret a
  | inl e => raise e
  end.

Definition get_db : M database := fun w => (inr (db w), w).

Definition put_db (d : database) : M unit :=
  fun w => (inr tt, World d (log w)).

Definition emit (ev : event) : M unit :=
  fun w => (inr tt, World (db w) (log w ++ [ev])).

Declare Scope monad_scope.
Delimit Scope monad_scope with monad.
Notation "x <- m ;; k" := (bind m (fun x => k))
  (at level 100, m at next level, right associativity) : monad_scope.
Notation "m ;;; k" := (bind m (fun _ => k))
  (at level 100, right associativity) : monad_scope.
Local Open Scope monad_scope.

(** ** The view *)

Section Dispatch.

(** Python's [int()] on text, which the ORM applies to the value of a
    primary-key lookup: [None] where it raises [ValueError]. *)
Variable py_int : string -> option Z.

(** The primary key a lookup value denotes; [id=None] matches no row.
    The ORM applies [int()] to any other value: a boolean is 0 or 1,
    text is parsed or raises [ValueError], an array or an object raises
    [TypeError].  The message of the exception names the value; the view
    never reads it, and it is cut short here. *)
Definition to_pk (i : ident) : result (option Z) :=
  match i with
  | IdNone => inr None
  | IdBool b => inr (Some (if b then 1 else 0))
  | IdInt z => inr (Some z)
  | IdStr s =>
      match py_int s with
      | Some z => inr (Some z)
      | None => inl (Exn ValueError "Field 'id' expected a number")
      end
  | IdArray _ | IdObject _ => inl (Exn TypeError "Field 'id' expected a number")
  end.

Definition does_not_exist {A} : M A :=
  raise (Exn DoesNotExist "matching query does not exist").

(** [AssistantSession.objects.get(session_id=session_id, user=request.user)] *)
Definition AssistantSession_get (sid : string) (user : Z) : M AssistantSession :=
  d <- get_db ;;
  match List.find (fun s => String.eqb (session_id s) sid && Z.eqb (session_user s) user)
                  (sessions d) with
  | Some s => ret s
  | None => does_not_exist
  end.

(** [AIModelConfig.objects.get(id=model_id, is_active=True)] *)
Definition AIModelConfig_get (model_id : ident) : M AIModelConfig :=
  d <- get_db ;;
  pk <- lift (to_pk model_id) ;;
  match pk with
  | Some z =>
      match List.find (fun c => Z.eqb (ai_pk c) z && ai_is_active c) (ai_configs d) with
      | Some c => ret c
      | None => does_not_exist
      end
  | None => does_not_exist
  end.

(** [DifyConfig.objects.get(id=dify_config_id)] *)
Definition DifyConfig_get (dify_config_id : ident) : M DifyConfig :=
  d <- get_db ;;
  pk <- lift (to_pk dify_config_id) ;;
  match pk with
  | Some z =>
      match List.find (fun c => Z.eqb (dify_pk c) z) (dify_configs d) with
      | Some c => ret c
      | None => does_not_exist
      end
  | None => does_not_exist
  end.

(** Modelled from the spec: [DifyConfig.get_active_config], a class
    method of the model, which is not part of the sources at hand.  It
    returns the registry's currently-active Dify config, if one
    exists. *)
Definition get_active_config : M (option DifyConfig) :=
  d <- get_db ;;
  ret (List.find dify_is_active (dify_configs d)).

(** [AIModelConfig.objects.filter(is_active=True).first()] *)
Definition AIModelConfig_first_active : M (option AIModelConfig) :=
  d <- get_db ;;
  ret (List.find ai_is_active (ai_configs d)).

(** The primary key the database gives a new row. *)
Definition fresh_pk (ms : list ChatMessage) : Z :=
  1 + foldr Z.max 0 (message_pk <$> ms).

(** [ChatMessage.objects.create(session=..., role=..., content=...,
    conversation_id=..., message_id=...)] at the time [now], for column
    values as they are stored: the insert of a row without content
    fails. *)
Definition ChatMessage_create (now : Z) (session : AssistantSession)
    (role : string) (content conversation_id message_id : value) : M ChatMessage :=
  if is_None content then raise null_content
  else
    d <- get_db ;;
    let m := {| message_pk := fresh_pk (chat_messages d);
                message_session := session_pk session;
                message_role := role;
                message_content := content;
                message_conversation_id := conversation_id;
                message_message_id := message_id;
                message_created_at := now |} in
    put_db {| sessions := sessions d;
              chat_messages := chat_messages d ++ [m];
              ai_configs := ai_configs d;
              dify_configs := dify_configs d |} ;;;
    emit (EvCreate m) ;;;
    ret m.

(** [session.save()]: the row of the session is replaced, its
    conversation id stored as a column of text stores it. *)
Definition AssistantSession_save (e : env) (s : AssistantSession) : M unit :=
  d <- get_db ;;
  let row := {| session_pk := session_pk s;
                session_user := session_user s;
                session_id := session_id s;
                session_conversation_id :=
                  column_text e (session_conversation_id s) |} in
  put_db {| sessions :=
              map (fun r => if Z.eqb (session_pk r) (session_pk row) then row else r)
                  (sessions d);
            chat_messages := chat_messages d;
            ai_configs := ai_configs d;
            dify_configs := dify_configs d |} ;;;
  emit (EvSave row).

(** [requests.post(url, headers=headers, json=payload, timeout=60)] *)
Definition requests_post (e : env) (o : outbound) : M http_response :=
  emit (EvPost o) ;;;
  lift (env_upstream e o).

(** *** Provider selection (lines 81-108) *)

Definition select_config (model_id dify_config_id : ident)
  : M (option AIModelConfig * option DifyConfig) :=
  let ai_config : option AIModelConfig := None in
  let dify_config : option DifyConfig := None in
  ai_config <-
    (if ident_truthy model_id then
       try_except
         (c <- AIModelConfig_get model_id ;; ret (Some c))
         (fun ex => if is_DoesNotExist ex || is_ValueError ex
                    then ret ai_config else raise ex)
     else ret ai_config) ;;
  dify_config <-
    (if negb (bool_decide (is_Some ai_config)) && ident_truthy dify_config_id then
       try_except
         (c <- DifyConfig_get dify_config_id ;; ret (Some c))
         (fun ex => if is_DoesNotExist ex || is_ValueError ex
                    then ret dify_config else raise ex)
     else ret dify_config) ;;
  dify_config <-
    (if negb (bool_decide (is_Some ai_config)) && negb (bool_decide (is_Some dify_config))
     then get_active_config
     else ret dify_config) ;;
  ai_config <-
    (if negb (bool_decide (is_Some ai_config)) && negb (bool_decide (is_Some dify_config))
     then AIModelConfig_first_active
     else ret ai_config) ;;
  ret (ai_config, dify_config).

(** *** Context assembly (lines 121-144) *)

Definition newest_first (a b : ChatMessage) : Prop :=
  message_created_at b <= message_created_at a.

Global Instance newest_first_dec a b : Decision (newest_first a b).
Proof. unfold newest_first. apply _. Defined.

(** [list(session.chat_messages.all().order_by('-created_at')
         .exclude(id=user_message_obj.id)[:10])], then [reverse()].
    Rows with equal [created_at] come in an order the database is free
    to choose; the sort fixes one. *)
Definition history_messages (d : database) (session : AssistantSession)
    (user_message_obj : ChatMessage) : list ChatMessage :=
  reverse
    (take 10
       (filter (fun m => message_pk m ≠ message_pk user_message_obj)
          (merge_sort newest_first
             (filter (fun m => message_session m = session_pk session)
                (chat_messages d))))).

Definition system_entry : chat_entry :=
  {| entry_role := "system";
     entry_content := VStr "你是一个专业的软件测试助手(AI评测师)，可以协助用户进行测试用例分析、编写、评审以及回答一般的测试相关问题。" |}.

Definition history_entry (msg : ChatMessage) : chat_entry :=
  {| entry_role := if String.eqb (message_role msg) "assistant" then "assistant" else "user";
     entry_content := message_content msg |}.

Definition build_messages_payload (history : list ChatMessage) (message : string)
  : list chat_entry :=
  let messages_payload := [system_entry] in
  let messages_payload := messages_payload ++ map history_entry history in
  messages_payload ++ [{| entry_role := "user"; entry_content := VStr message |}].

(** *** URL normalisation (lines 152-160) *)

Definition completion_url (configured : string) : string :=
  let base_url := rstrip "/" configured in
  if negb (endswith base_url "/chat/completions") then
    if endswith base_url "/v1" then base_url +:+ "/chat/completions"
    else base_url +:+ "/v1/chat/completions"
  else base_url.

(** *** The direct model provider (lines 111-203) *)

(** Lines 175-177: the text of the first completion choice. *)
Definition answer_content (api_data : value) : result value :=
  match py_contains "choices" api_data with
  | inl ex => inl ex
  | inr false => inr (VStr "")
  | inr true =>
      match py_getitem_str api_data "choices" with
      | inl ex => inl ex
      | inr choices =>
          match py_len choices with
          | inl ex => inl ex
          | inr n =>
              if bool_decide (0 < n)%nat then
                match py_getitem_0 choices with
                | inl ex => inl ex
                | inr choice =>
                    match py_getitem_str choice "message" with
                    | inl ex => inl ex
                    | inr msg => py_getitem_str msg "content"
                    end
                end
              else inr (VStr "")
          end
      end
  end.

(** What the decoded body gives is written through [column_text]; the
    conversation id of the session was read from its column, and is
    written back as it is. *)
Definition model_path (e : env) (session : AssistantSession) (message : string)
    (ai_config : AIModelConfig) : M response :=
  user_message_obj <-
    ChatMessage_create (env_now e) session "user" (VStr message)
      (session_conversation_id session) VNone ;;
  try_except
    (d <- get_db ;;
     let history := history_messages d session user_message_obj in
     let messages_payload := build_messages_payload history message in
     let url := completion_url (ai_base_url ai_config) in
     let payload := {| pl_model := ai_model_name ai_config;
                       pl_messages := messages_payload;
                       pl_temperature := ai_temperature ai_config;
                       pl_max_tokens := ai_max_tokens ai_config;
                       pl_stream := false |} in
     response <- requests_post e
       {| out_url := url;
          out_authorization := "Bearer " +:+ ai_api_key ai_config;
          out_json := LLMBody payload;
          out_timeout := 60 |} ;;
     if Z.eqb (status_code response) 200 then
       api_data <- lift (json response) ;;
       answer <- lift (answer_content api_data) ;;
       message_id <- lift (py_get api_data "id" VNone) ;;
       assistant_message <-
         ChatMessage_create (env_later e) session "assistant" (column_text e answer)
           (session_conversation_id session) (column_text e message_id) ;;
       ret (Response
              (ReplyData user_message_obj assistant_message
                 (session_conversation_id session) (ai_name ai_config))
              HTTP_200_OK)
     else
       ret (Response
              (ErrorData ("AI Model API错误: " +:+ pretty (status_code response))
                 (Some (text response)))
              HTTP_500_INTERNAL_SERVER_ERROR))
    (fun ex =>
       ret (Response (ErrorData ("AI请求失败: " +:+ exn_str ex) None)
              HTTP_500_INTERNAL_SERVER_ERROR)).

(** *** The knowledge-base provider (lines 206-279) *)

(** The session object keeps the conversation id as the body gave it;
    [session.save()] and the insert of the assistant's row store what a
    column of text stores for it. *)
Definition dify_path (e : env) (request : request) (session : AssistantSession)
    (message : string) (dify_config : DifyConfig) : M response :=
  user_message <-
    ChatMessage_create (env_now e) session "user" (VStr message)
      (session_conversation_id session) VNone ;;
  try_except
    (let payload := {| dp_inputs := [];
                       dp_query := message;
                       dp_user := pretty (req_user request);
                       dp_response_mode := "blocking";
                       dp_conversation_id :=
                         if truthy (session_conversation_id session)
                         then Some (session_conversation_id session)
                         else None |} in
     let api_url := rstrip "/" (dify_api_url dify_config) in
     response <- requests_post e
       {| out_url := api_url +:+ "/chat-messages";
          out_authorization := "Bearer " +:+ dify_api_key dify_config;
          out_json := DifyBody payload;
          out_timeout := 60 |} ;;
     if Z.eqb (status_code response) 200 then
       data <- lift (json response) ;;
       has_id <- lift (py_contains "conversation_id" data) ;;
       session <-
         (if has_id && negb (truthy (session_conversation_id session)) then
            cid <- lift (py_getitem_str data "conversation_id") ;;
            let session := {| session_pk := session_pk session;
                              session_user := session_user session;
                              session_id := session_id session;
                              session_conversation_id := cid |} in
            AssistantSession_save e session ;;;
            ret session
          else ret session) ;;
       answer <- lift (py_get data "answer" (VStr "")) ;;
       conversation_id <- lift (py_get data "conversation_id" VNone) ;;
       message_id <- lift (py_get data "message_id" VNone) ;;
       assistant_message <-
         ChatMessage_create (env_later e) session "assistant" (column_text e answer)
           (column_text e conversation_id) (column_text e message_id) ;;
       ret (Response
              (ReplyData user_message assistant_message conversation_id
                 "Dify Knowledge Base")
              HTTP_200_OK)
     else
       ret (Response
              (ErrorData ("Dify API错误: " +:+ pretty (status_code response))
                 (Some (text response)))
              HTTP_500_INTERNAL_SERVER_ERROR))
    (fun ex =>
       if is_Timeout ex then
         ret (Response (ErrorData "API请求超时" None) HTTP_408_REQUEST_TIMEOUT)
       else if is_RequestException ex then
         ret (Response (ErrorData ("API请求失败: " +:+ exn_str ex) None)
                HTTP_500_INTERNAL_SERVER_ERROR)
       else raise ex).

(** *** [ChatViewSet.send_message] *)

Definition missing_input : response :=
  Response (ErrorData "session_id和message都是必填项" None) HTTP_400_BAD_REQUEST.

Definition session_missing : response :=
  Response (ErrorData "会话不存在" None) HTTP_404_NOT_FOUND.

Definition no_provider : response :=
  Response (ErrorData "未配置Dify API，也未配置LLM模型，请先在配置中心配置" None)
    HTTP_400_BAD_REQUEST.

Definition send_message (e : env) (request : request) : M response :=
  let model_id := req_model_id request in
  let dify_config_id := req_dify_config_id request in
  match req_session_id request, req_message request with
  | Some session_id, Some message =>
      if negb (text_truthy (Some session_id)) || negb (text_truthy (Some message)) then
        ret missing_input
      else
        found <-
          try_except
            (s <- AssistantSession_get session_id (req_user request) ;; ret (Some s))
            (fun ex => if is_DoesNotExist ex then ret None else raise ex) ;;
        match found with
        | None => ret session_missing
        | Some session =>
            configs <- select_config model_id dify_config_id ;;
            match configs with
            | (Some ai_config, _) => model_path e session message ai_config
            | (None, Some dify_config) =>
                dify_path e request session message dify_config
            | (None, None) => ret no_provider
            end
        end
  | _, _ => ret missing_input
  end.

(** A series of dispatches, each in its own environment; only the world
    they leave matters here. *)
Fixpoint run_dispatches (l : list (env * request)) (w : world) : world :=
  match l with
  | [] => w
  | (e, r) :: l' => run_dispatches l' (send_message e r w).2
  end.

(** *** The resolution order as the specification words it

    Section 4.1: first match wins among (1) the explicit model-config
    reference, if it resolves to an active config; (2) the explicit
    Dify-config reference, if it resolves to any config; (3) the
    registry's currently-active Dify config; (4) the first
    currently-active model config.  A reference is explicit when the
    request carries a non-empty value for it.  The section names no
    outcome for a reference whose lookup raises an exception other than
    the two the view catches; the exception is the result then. *)

Inductive provider :=
  | ModelProvider (c : AIModelConfig)
  | DifyProvider (c : DifyConfig).

(** What a lookup that raised [ex] leaves of an explicit reference:
    nothing when the view catches [ex], the exception otherwise. *)
Definition ignored {A} (ex : exn) : result (option A) :=
  if is_DoesNotExist ex || is_ValueError ex then inr None else inl ex.

Definition explicit_model (d : database) (model_id : ident)
  : result (option AIModelConfig) :=
  if ident_truthy model_id then
    match to_pk model_id with
    | inr (Some z) =>
        inr (List.find (fun c => Z.eqb (ai_pk c) z && ai_is_active c) (ai_configs d))
    | inr None => inr None
    | inl ex => ignored ex
    end
  else inr None.

Definition explicit_dify (d : database) (dify_config_id : ident)
  : result (option DifyConfig) :=
  if ident_truthy dify_config_id then
    match to_pk dify_config_id with
    | inr (Some z) => inr (List.find (fun c => Z.eqb (dify_pk c) z) (dify_configs d))
    | inr None => inr None
    | inl ex => ignored ex
    end
  else inr None.

Definition resolve_provider (d : database) (model_id dify_config_id : ident)
  : result (option provider) :=
  match explicit_model d model_id with
  | inl ex => inl ex
  | inr (Some c) => inr (Some (ModelProvider c))
  | inr None =>
      match explicit_dify d dify_config_id with
      | inl ex => inl ex
      | inr (Some c) => inr (Some (DifyProvider c))
      | inr None =>
          match List.find dify_is_active (dify_configs d) with
          | Some c => inr (Some (DifyProvider c))
          | None =>
              match List.find ai_is_active (ai_configs d) with
              | Some c => inr (Some (ModelProvider c))
              | None => inr None
              end
          end
      end
  end.

(** A model-config reference that does not resolve: text that is no
    number, or a key that names no config that is active. *)
Definition unresolved_model (d : database) (model_id : ident) : Prop :=
  match to_pk model_id with
  | inr (Some z) =>
      forall c, c ∈ ai_configs d -> ai_pk c = z -> ai_is_active c = false
  | inr None => True
  | inl ex => exn_cls ex = ValueError
  end.

(** A Dify-config reference that does not resolve: text that is no
    number, or a key that names no config. *)
Definition unresolved_dify (d : database) (dify_config_id : ident) : Prop :=
  match to_pk dify_config_id with
  | inr (Some z) => forall c, c ∈ dify_configs d -> dify_pk c ≠ z
  | inr None => True
  | inl ex => exn_cls ex = ValueError
  end.

End Dispatch.

(** The two variables of the view, for a choice of provider. *)
Definition chosen (p : option provider) : option AIModelConfig * option DifyConfig :=
  match p with
  | Some (ModelProvider c) => (Some c, None)
  | Some (DifyProvider c) => (None, Some c)
  | None => (None, None)
  end.

(** What the selection of lines 81-108 returns, for an outcome of the
    resolution. *)
Definition selected (r : result (option provider))
  : result (option AIModelConfig * option DifyConfig) :=
  match r with
  | inl ex => inl ex
  | inr p => inr (chosen p)
  end.

(** ** Names for the steps of a dispatch *)

(** The session a request is for, when its owner sends it. *)
Definition owned_session (d : database) (sid : string) (user : Z)
  : option AssistantSession :=
  List.find (fun s => String.eqb (session_id s) sid && Z.eqb (session_user s) user)
            (sessions d).

(** The row [ChatMessage.objects.create] inserts at the time [now]. *)
Definition new_row (now : Z) (d : database) (session : AssistantSession)
    (role : string) (content conversation_id message_id : value) : ChatMessage :=
  {| message_pk := fresh_pk (chat_messages d);
     message_session := session_pk session;
     message_role := role;
     message_content := content;
     message_conversation_id := conversation_id;
     message_message_id := message_id;
     message_created_at := now |}.

(** The row inserted for the user's text. *)
Definition user_row (e : env) (d : database) (session : AssistantSession)
    (message : string) : ChatMessage :=
  new_row (env_now e) d session "user" (VStr message)
    (session_conversation_id session) VNone.

Definition with_message (d : database) (m : ChatMessage) : database :=
  {| sessions := sessions d;
     chat_messages := chat_messages d ++ [m];
     ai_configs := ai_configs d;
     dify_configs := dify_configs d |}.

(** The call the model path makes. *)
Definition model_call (ai_config : AIModelConfig) (messages : list chat_entry)
  : outbound :=
  {| out_url := completion_url (ai_base_url ai_config);
     out_authorization := "Bearer " +:+ ai_api_key ai_config;
     out_json := LLMBody {| pl_model := ai_model_name ai_config;
                            pl_messages := messages;
                            pl_temperature := ai_temperature ai_config;
                            pl_max_tokens := ai_max_tokens ai_config;
                            pl_stream := false |};
     out_timeout := 60 |}.

(** The same request without its model-config reference, and without
    its Dify-config reference. *)
Definition without_model_id (r : request) : request :=
  {| req_user := req_user r;
     req_session_id := req_session_id r;
     req_message := req_message r;
     req_model_id := IdNone;
     req_dify_config_id := req_dify_config_id r |}.

Definition without_dify_config_id (r : request) : request :=
  {| req_user := req_user r;
     req_session_id := req_session_id r;
     req_message := req_message r;
     req_model_id := req_model_id r;
     req_dify_config_id := IdNone |}.

(** The responses of the model path. *)
Definition model_failure (ex : exn) : response :=
  Response (ErrorData ("AI请求失败: " +:+ exn_str ex) None)
    HTTP_500_INTERNAL_SERVER_ERROR.

Definition model_upstream_error (r : http_response) : response :=
  Response (ErrorData ("AI Model API错误: " +:+ pretty (status_code r)) (Some (text r)))
    HTTP_500_INTERNAL_SERVER_ERROR.

(** What the model path does once the upstream has answered [r], in the
    world [w1] it has reached by then: the response, and the world it
    leaves. *)
Definition model_outcome (e : env) (session : AssistantSession)
    (ai_config : AIModelConfig) (um : ChatMessage) (w1 : world)
    (r : result http_response) : response * world :=
  match r with
  | inl ex => (model_failure ex, w1)
  | inr response =>
      if Z.eqb (status_code response) 200 then
        match json response with
        | inl ex => (model_failure ex, w1)
        | inr api_data =>
            match answer_content api_data with
            | inl ex => (model_failure ex, w1)
            | inr answer =>
                match py_get api_data "id" VNone with
                | inl ex => (model_failure ex, w1)
                | inr message_id =>
                    if is_None answer then (model_failure null_content, w1)
                    else
                      let am := new_row (env_later e) (db w1) session "assistant"
                                  (column_text e answer)
                                  (session_conversation_id session)
                                  (column_text e message_id) in
                      (Response
                         (ReplyData um am (session_conversation_id session)
                            (ai_name ai_config))
                         HTTP_200_OK,
                       World (with_message (db w1) am) (log w1 ++ [EvCreate am]))
                end
            end
        end
      else (model_upstream_error response, w1)
  end.

(** The call the knowledge-base path makes. *)
Definition dify_call (request : request) (session : AssistantSession)
    (message : string) (dify_config : DifyConfig) : outbound :=
  {| out_url := rstrip "/" (dify_api_url dify_config) +:+ "/chat-messages";
     out_authorization := "Bearer " +:+ dify_api_key dify_config;
     out_json := DifyBody {| dp_inputs := [];
                             dp_query := message;
                             dp_user := pretty (req_user request);
                             dp_response_mode := "blocking";
                             dp_conversation_id :=
                               if truthy (session_conversation_id session)
                               then Some (session_conversation_id session)
                               else None |};
     out_timeout := 60 |}.

(** The responses of the knowledge-base path. *)
Definition dify_timeout : response :=
  Response (ErrorData "API请求超时" None) HTTP_408_REQUEST_TIMEOUT.

Definition dify_failure (ex : exn) : response :=
  Response (ErrorData ("API请求失败: " +:+ exn_str ex) None)
    HTTP_500_INTERNAL_SERVER_ERROR.

Definition dify_upstream_error (r : http_response) : response :=
  Response (ErrorData ("Dify API错误: " +:+ pretty (status_code r)) (Some (text r)))
    HTTP_500_INTERNAL_SERVER_ERROR.

(** The two [except] clauses of the knowledge-base path; any other
    exception leaves the view. *)
Definition dify_handler (ex : exn) (w : world) : result response * world :=
  if is_Timeout ex then (inr dify_timeout, w)
  else if is_RequestException ex then (inr (dify_failure ex), w)
  else (inl ex, w).

Definition with_conversation_id (s : AssistantSession) (cid : value)
  : AssistantSession :=
  {| session_pk := session_pk s;
     session_user := session_user s;
     session_id := session_id s;
     session_conversation_id := cid |}.

Definition with_session (d : database) (s : AssistantSession) : database :=
  {| sessions := map (fun r => if Z.eqb (session_pk r) (session_pk s) then s else r)
                     (sessions d);
     chat_messages := chat_messages d;
     ai_configs := ai_configs d;
     dify_configs := dify_configs d |}.

(** Lines 251-265, in the world [w2] reached after the binding of the
    conversation id. *)
Definition dify_reply (e : env) (session : AssistantSession) (um : ChatMessage)
    (data : value) (w2 : world) : result response * world :=
  match py_get data "answer" (VStr "") with
  | inl ex => dify_handler ex w2
  | inr answer =>
      match py_get data "conversation_id" VNone with
      | inl ex => dify_handler ex w2
      | inr conversation_id =>
          match py_get data "message_id" VNone with
          | inl ex => dify_handler ex w2
          | inr message_id =>
              if is_None answer then dify_handler null_content w2
              else
                let am := new_row (env_later e) (db w2) session "assistant"
                            (column_text e answer) (column_text e conversation_id)
                            (column_text e message_id) in
                (inr (Response
                        (ReplyData um am conversation_id "Dify Knowledge Base")
                        HTTP_200_OK),
                 World (with_message (db w2) am) (log w2 ++ [EvCreate am]))
          end
      end
  end.

(** What the knowledge-base path does once the upstream has answered
    [r], in the world [w1] it has reached by then. *)
Definition dify_outcome (e : env) (session : AssistantSession)
    (um : ChatMessage) (w1 : world) (r : result http_response)
  : result response * world :=
  match r with
  | inl ex => dify_handler ex w1
  | inr response =>
      if Z.eqb (status_code response) 200 then
        match json response with
        | inl ex => dify_handler ex w1
        | inr data =>
            match py_contains "conversation_id" data with
            | inl ex => dify_handler ex w1
            | inr has_id =>
                if has_id && negb (truthy (session_conversation_id session)) then
                  match py_getitem_str data "conversation_id" with
                  | inl ex => dify_handler ex w1
                  | inr cid =>
                      let session' :=
                        with_conversation_id session (column_text e cid) in
                      dify_reply e session' um data
                        (World (with_session (db w1) session')
                               (log w1 ++ [EvSave session']))
                  end
                else dify_reply e session um data w1
            end
        end
      else (inr (dify_upstream_error response), w1)
  end.

(** The call a dispatch makes to the provider chosen for it; [um] is the
    row inserted for the user's text and [d1] the database holding it. *)
Definition provider_call (p : provider) (request : request)
    (session : AssistantSession) (message : string) (d1 : database)
    (um : ChatMessage) : outbound :=
  match p with
  | ModelProvider c =>
      model_call c (build_messages_payload (history_messages d1 session um) message)
  | DifyProvider c => dify_call request session message c
  end.

(** The outbound call fails: [requests.post] raises (a timeout or any
    other exception), or the status is not 200. *)
Definition upstream_failed (r : result http_response) : Prop :=
  match r with
  | inl _ => True
  | inr response => status_code response ≠ 200
  end.

(** The prior messages of a session, before the request at hand. *)
Definition prior_messages (d : database) (session : AssistantSession)
  : list ChatMessage :=
  filter (fun m => message_session m = session_pk session) (chat_messages d).

(** *** The reply of a completion, as the specification reads it

    Section 6 expects [choices[0].message.content] of the decoded body,
    and section 4.3 the empty string if it is absent: the reply is the
    content of the first choice when [choices] is an array whose first
    element is an object with a [message] object that carries a
    [content], null excepted, and the empty string when [choices] is
    absent or empty.  [None] is a body that cannot be read this way. *)
Definition first_choice_content (api_data : value) : option value :=
  match api_data with
  | VDict fields =>
      match assoc_get fields "choices" with
      | None => Some (VStr "")
      | Some (VList []) | Some (VStr EmptyString) | Some (VDict []) => Some (VStr "")
      | Some (VList (VDict choice :: _)) =>
          match assoc_get choice "message" with
          | Some (VDict message) =>
              match assoc_get message "content" with
              | Some VNone | None => None
              | Some content => Some content
              end
          | _ => None
          end
      | Some _ => None
      end
  | _ => None
  end.

(** The rows the history query ranks, newest first, before the slice. *)
Definition candidates (d : database) (session : AssistantSession)
    (user_message_obj : ChatMessage) : list ChatMessage :=
  filter (fun m => message_pk m ≠ message_pk user_message_obj)
    (merge_sort newest_first
       (filter (fun m => message_session m = session_pk session)
          (chat_messages d))).

(** ** A small installation, for the examples *)

Fixpoint decimal_digits (s : string) (acc : Z) : option Z :=
  match s with
  | EmptyString => Some acc
  | String c s' =>
      let n := Z.of_N (N_of_ascii c) in
      if Z.leb 48 n && Z.leb n 57 then decimal_digits s' (10 * acc + (n - 48))
      else None
  end.

(** [int()] on the plain decimal numerals; enough for the examples. *)
Definition decimal_int (s : string) : option Z :=
  match s with
  | EmptyString => None
  | String "-"%char EmptyString => None
  | String "-"%char s' => Z.opp <$> decimal_digits s' 0
  | _ => decimal_digits s 0
  end.

Definition gpt : AIModelConfig :=
  {| ai_pk := 1; ai_name := "gpt"; ai_api_key := "sk-1";
     ai_base_url := "https://api.x.com/v1"; ai_model_name := "gpt-4";
     ai_temperature := 0%Q; ai_max_tokens := 1024; ai_is_active := true |}.

Definition retired : AIModelConfig :=
  {| ai_pk := 2; ai_name := "old"; ai_api_key := "sk-2";
     ai_base_url := "https://old.x.com/"; ai_model_name := "gpt-3";
     ai_temperature := 0%Q; ai_max_tokens := 256; ai_is_active := false |}.

(** A Dify config that is not the active one. *)
Definition kb : DifyConfig :=
  {| dify_pk := 5; dify_api_key := "app-1";
     dify_api_url := "https://kb.x.com/v1/"; dify_is_active := false |}.

Definition thread (cid : value) : AssistantSession :=
  {| session_pk := 1; session_user := 7; session_id := "s-1";
     session_conversation_id := cid |}.

Definition installation (cid : value) : world :=
  World {| sessions := [thread cid]; chat_messages := [];
           ai_configs := [gpt; retired]; dify_configs := [kb] |} [].

Definition ask (model_id dify_config_id : ident) : request :=
  {| req_user := 7; req_session_id := Some "s-1"; req_message := Some "hello";
     req_model_id := model_id; req_dify_config_id := dify_config_id |}.

(** [str()] on null, booleans and numbers; enough for the examples. *)
Definition plain_str (v : value) : string :=
  match v with
  | VNone => "None"
  | VBool true => "True"
  | VBool false => "False"
  | VInt z => pretty z
  | VStr s => s
  | VList _ => "[...]"
  | VDict _ => "{...}"
  end.

Definition answering (r : result http_response) : env :=
  {| env_now := 100; env_later := 101; env_str := plain_str;
     env_upstream := fun _ => r |}.

Definition ok_body (body : value) : result http_response :=
  inr {| status_code := 200; text := "(body)"; json := inr body |}.

Definition overloaded : result http_response :=
  inr {| status_code := 503; text := "overloaded";
         json := inl (Exn ValueError "Expecting value") |}.

Definition timed_out : result http_response :=
  inl (Exn Timeout "Read timed out.").


(** Two replies of the knowledge base, carrying the conversation ids
    given. *)
Definition kb_reply (cid : string) : result http_response :=
  ok_body (VDict [("answer", VStr "hi"); ("conversation_id", VStr cid);
                  ("message_id", VStr "m-1")]).

(** The status a dispatch answers with, when it answers. *)
Definition status_of (r : result response) : option Z :=
  match r with
  | inr x => Some (resp_status x)
  | inl _ => None
  end.

(** ** The session view set *)

(** [AssistantSessionViewSet.get_queryset] (lines 25-26):
    [AssistantSession.objects.filter(user=self.request.user)] *)
Definition get_queryset (d : database) (user : Z) : list AssistantSession :=
  filter (fun s => session_user s = user) (sessions d).

(** A decoded body that is not a JSON object. *)
Definition not_object (v : value) : Prop :=
  match v with
  | VDict _ => False
  | _ => True
  end.

(** A second user with a session of their own, and a few stored rows. *)
Definition guest_thread : AssistantSession :=
  {| session_pk := 2; session_user := 8; session_id := "s-2";
     session_conversation_id := VNone |}.

Definition stored (pk session_fk time : Z) (role text : string) : ChatMessage :=
  {| message_pk := pk; message_session := session_fk; message_role := role;
     message_content := VStr text; message_conversation_id := VNone;
     message_message_id := VNone; message_created_at := time |}.

Definition busy : world :=
  World {| sessions := [thread VNone; guest_thread];
           chat_messages := [stored 1 1 10 "user" "ping";
                             stored 2 2 15 "user" "other";
                             stored 3 1 20 "assistant" "pong"];
           ai_configs := [gpt; retired]; dify_configs := [kb] |} [].

(** * Properties *)

(** ** Strings *)

Lemma string_app_nil_l s : "" +:+ s = s.
Proof. reflexivity. Qed.

Lemma string_app_cons c s t : String c s +:+ t = String c (s +:+ t).
Proof. reflexivity. Qed.

Lemma string_app_nil_r s : s +:+ "" = s.
Proof.
  induction s as [|c s IH]; [done|]. by rewrite string_app_cons, IH.
Qed.

Lemma string_app_assoc s t u : (s +:+ t) +:+ u = s +:+ (t +:+ u).
Proof.
  induction s as [|c s IH]; [done|]. by rewrite !string_app_cons, IH.
Qed.

Lemma string_rev_acc_app s acc :
  string_rev_acc s acc = string_rev s +:+ acc.
Proof.
  unfold string_rev. revert acc.
  induction s as [|c s IH]; intros acc; [done|].
  change (string_rev_acc s (String c acc) = string_rev_acc s (String c "") +:+ acc).
  rewrite (IH (String c acc)), (IH (String c "")).
  by rewrite string_app_assoc.
Qed.

Lemma string_rev_cons c s :
  string_rev (String c s) = string_rev s +:+ String c "".
Proof. unfold string_rev at 1. apply (string_rev_acc_app s (String c "")). Qed.

Lemma string_rev_app s t :
  string_rev (s +:+ t) = string_rev t +:+ string_rev s.
Proof.
  induction s as [|c s IH].
  - by rewrite string_app_nil_l, string_app_nil_r.
  - by rewrite string_app_cons, !string_rev_cons, IH, string_app_assoc.
Qed.

Lemma string_rev_involutive s : string_rev (string_rev s) = s.
Proof.
  induction s as [|c s IH]; [done|].
  by rewrite string_rev_cons, string_rev_app, IH.
Qed.

Lemma startswith_spec s p :
  startswith s p = true <-> exists r, s = p +:+ r.
Proof.
  revert s. induction p as [|a p IH]; intros s.
  - split; [intros _; by exists s|]. by destruct s.
  - destruct s as [|b s].
    + split; [done|]. by intros [r Hr].
    + change (startswith (String b s) (String a p))
        with (Ascii.eqb a b && startswith s p).
      rewrite andb_true_iff, Ascii.eqb_eq, IH. split.
      * intros [-> [r ->]]. by exists r.
      * intros [r Hr]. rewrite string_app_cons in Hr.
        injection Hr as -> ->. eauto.
Qed.

Lemma endswith_spec s suf :
  endswith s suf = true <-> exists p, s = p +:+ suf.
Proof.
  unfold endswith. rewrite startswith_spec. split.
  - intros [r Hr]. exists (string_rev r).
    rewrite <- (string_rev_involutive s), Hr, string_rev_app.
    by rewrite string_rev_involutive.
  - intros [p ->]. exists (string_rev p). apply string_rev_app.
Qed.

Lemma lstrip_char_spec c s :
  exists n, s = repeat_char c n +:+ lstrip_char c s
            /\ startswith (lstrip_char c s) (String c "") = false.
Proof.
  induction s as [|a s [n [IH1 IH2]]].
  - by exists 0%nat.
  - simpl. destruct (Ascii.eqb a c) eqn:E.
    + apply Ascii.eqb_eq in E as ->. exists (S n).
      split; [|done]. simpl. by rewrite string_app_cons, <- IH1.
    + exists 0%nat. split; [done|]. simpl.
      rewrite Ascii.eqb_sym. by rewrite E.
Qed.

Lemma repeat_char_snoc c n :
  repeat_char c n +:+ String c "" = String c (repeat_char c n).
Proof.
  induction n as [|n IH]; [done|]. simpl.
  by rewrite string_app_cons, IH.
Qed.

Lemma string_rev_repeat_char c n :
  string_rev (repeat_char c n) = repeat_char c n.
Proof.
  induction n as [|n IH]; [done|]. simpl.
  by rewrite string_rev_cons, IH, repeat_char_snoc.
Qed.

(** [rstrip] removes a run of the character from the end, and the whole
    run. *)
Lemma rstrip_spec c s :
  exists n, s = rstrip c s +:+ repeat_char c n
            /\ endswith (rstrip c s) (String c "") = false.
Proof.
  unfold rstrip, endswith.
  destruct (lstrip_char_spec c (string_rev s)) as [n [H1 H2]].
  exists n. split.
  - rewrite <- (string_rev_involutive s) at 1.
    rewrite H1 at 1. by rewrite string_rev_app, string_rev_repeat_char.
  - by rewrite string_rev_involutive.
Qed.

(** ** URL normalisation *)


(** ** Context assembly *)



Global Instance newest_first_trans : Transitive newest_first.
Proof. unfold newest_first. intros a b c ? ?. lia. Qed.

Global Instance newest_first_total : Total newest_first.
Proof. unfold newest_first. intros a b. lia. Qed.

Lemma history_messages_eq d session um :
  history_messages d session um = reverse (take 10 (candidates d session um)).
Proof. reflexivity. Qed.

Lemma fresh_pk_above ms m : m ∈ ms -> message_pk m < fresh_pk ms.
Proof.
  unfold fresh_pk. induction ms as [|a ms IH]; intros Hm.
  - by apply elem_of_nil in Hm.
  - rewrite fmap_cons. cbn [foldr].
    apply elem_of_cons in Hm as [->|Hm]; [lia|].
    specialize (IH Hm). lia.
Qed.

Lemma filter_all {A} (P : A -> Prop) `{forall x, Decision (P x)} (l : list A) :
  Forall P l -> filter P l = l.
Proof.
  induction 1 as [|x l Hx Hl IH]; [done|].
  rewrite filter_cons. destruct (decide (P x)); [by rewrite IH|done].
Qed.

Lemma StronglySorted_filter {A} (R : relation A) (P : A -> Prop)
    `{forall x, Decision (P x)} (l : list A) :
  StronglySorted R l -> StronglySorted R (filter P l).
Proof.
  induction 1 as [|x l Hl IH Hx]; [constructor|].
  rewrite filter_cons. destruct (decide (P x)); [|done].
  constructor; [done|].
  apply Forall_forall. intros y Hy.
  apply list_elem_of_filter in Hy as [_ Hy].
  by eapply Forall_forall in Hx.
Qed.

Lemma StronglySorted_take {A} (R : relation A) (n : nat) (l : list A) :
  StronglySorted R l -> StronglySorted R (take n l).
Proof.
  intros Hl. rewrite <- (take_drop n l) in Hl.
  by apply StronglySorted_app_1_l in Hl.
Qed.

Lemma StronglySorted_reverse {A} (R : relation A) (l : list A) :
  StronglySorted R l -> StronglySorted (flip R) (reverse l).
Proof.
  induction 1 as [|x l Hl IH Hx]; [constructor|].
  rewrite reverse_cons. apply StronglySorted_app. split; [|split].
  - intros a b Ha Hb. apply list_elem_of_singleton in Hb as ->.
    rewrite elem_of_reverse in Ha.
    exact (proj1 (Forall_forall (R x) l) Hx a Ha).
  - done.
  - repeat constructor.
Qed.

Lemma candidates_sorted d session um :
  StronglySorted newest_first (candidates d session um).
Proof.
  unfold candidates. apply StronglySorted_filter.
  apply StronglySorted_merge_sort; apply _.
Qed.

(** After the user's row is inserted, the query ranks exactly the rows
    the session had before. *)
Lemma candidates_after_insert e d session message :
  candidates (with_message d (user_row e d session message)) session
             (user_row e d session message)
  ≡ₚ prior_messages d session.
Proof.
  unfold candidates, prior_messages. simpl.
  rewrite merge_sort_Permutation, filter_app.
  rewrite (filter_cons _ (user_row e d session message) []).
  destruct (decide _) as [_|N]; [|by destruct N].
  rewrite filter_nil, filter_app.
  rewrite (filter_cons _ (user_row e d session message) []).
  destruct (decide _) as [N|_]; [by destruct N|].
  rewrite filter_nil, app_nil_r.
  rewrite filter_all; [done|].
  apply Forall_forall. intros m Hm.
  apply list_elem_of_filter in Hm as [_ Hm].
  apply fresh_pk_above in Hm. simpl. lia.
Qed.

(** ** The model path, step by step *)

Lemma is_None_column_text e v : is_None (column_text e v) = is_None v.
Proof. by destruct v. Qed.

Lemma model_path_unfold e session message ai_config w :
  let um := user_row e (db w) session message in
  let d1 := with_message (db w) um in
  let o := model_call ai_config
             (build_messages_payload (history_messages d1 session um) message) in
  let w1 := World d1 ((log w ++ [EvCreate um]) ++ [EvPost o]) in
  model_path e session message ai_config w =
    (inr (model_outcome e session ai_config um w1 (env_upstream e o)).1,
     (model_outcome e session ai_config um w1 (env_upstream e o)).2).
Proof.
  intros um d1 o w1. subst um d1 o w1.
  unfold model_path, model_outcome, model_call, user_row, new_row, with_message,
    ChatMessage_create, requests_post,
    try_except, bind, get_db, put_db, emit, lift, ret, raise. simpl.
  match goal with
  | |- context [env_upstream e ?x] => destruct (env_upstream e x) as [ex|r]
  end; [done|]. simpl.
  destruct (Z.eqb (status_code r) 200); [|done].
  destruct (json r) as [ex|api_data]; [done|]. simpl.
  destruct (answer_content api_data) as [ex|answer]; [done|]. simpl.
  destruct (py_get api_data "id" VNone) as [ex|mid]; [done|]. simpl.
  by destruct answer.
Qed.

Lemma model_outcome_world e session ai_config um w1 r :
  (model_outcome e session ai_config um w1 r).2 = w1
  \/ exists am,
       (model_outcome e session ai_config um w1 r).2
         = World (with_message (db w1) am) (log w1 ++ [EvCreate am])
       /\ exists cid used,
            (model_outcome e session ai_config um w1 r).1
              = Response (ReplyData um am cid used) HTTP_200_OK.
Proof.
  unfold model_outcome.
  destruct r as [ex|r]; [by left|].
  destruct (Z.eqb (status_code r) 200); [|by left].
  destruct (json r) as [ex|api_data]; [by left|].
  destruct (answer_content api_data) as [ex|answer]; [by left|].
  destruct (py_get api_data "id" VNone) as [ex|mid]; [by left|].
  destruct (is_None answer); [by left|].
  right. eexists. split; [done|]. by do 2 eexists.
Qed.

(** The window the history query returns right after the user's row was
    inserted. *)
Lemma window_facts e d session message :
  let um := user_row e d session message in
  let window := history_messages (with_message d um) session um in
  length window = Nat.min 10 (length (prior_messages d session))
  /\ (forall m, m ∈ window ->
        m ∈ prior_messages d session /\ message_pk m ≠ message_pk um)
  /\ StronglySorted (fun a b => message_created_at a <= message_created_at b) window
  /\ (exists skipped,
        prior_messages d session ≡ₚ window ++ skipped
        /\ forall m m', m ∈ skipped -> m' ∈ window ->
             message_created_at m <= message_created_at m').
Proof.
  intros um window. subst window. rewrite history_messages_eq.
  pose proof (candidates_after_insert e d session message) as Hperm.
  pose proof (candidates_sorted (with_message d um) session um) as Hsort.
  fold um in Hperm.
  set (C := candidates (with_message d um) session um) in *.
  split; [|split; [|split]].
  - by rewrite length_reverse, length_take, Hperm.
  - intros m Hm. rewrite elem_of_reverse in Hm.
    apply elem_of_take in Hm as (i & Hi & _).
    apply list_elem_of_lookup_2 in Hi. split.
    + by rewrite <- Hperm.
    + unfold C, candidates in Hi. by apply list_elem_of_filter in Hi as [? _].
  - apply (StronglySorted_reverse newest_first).
    by apply StronglySorted_take.
  - exists (drop 10 C). split.
    + rewrite <- Hperm, <- (take_drop 10 C) at 1.
      by rewrite reverse_Permutation.
    + intros m m' Hm Hm'. rewrite elem_of_reverse in Hm'.
      rewrite <- (take_drop 10 C) in Hsort.
      apply StronglySorted_app in Hsort as (H & _ & _).
      exact (H m' m Hm' Hm).
Qed.

(** C3.  On the model path the context sent upstream is one system
    instruction, then the window of prior messages, then the current
    user message.  The window holds at most 10 rows, all of them rows the
    session had before this request (the row just persisted is not among
    them), oldest first, and no row left out is newer than a row kept.
    The payload has at most 12 entries. *)
Theorem context_window e session message ai_config w :
  let um := user_row e (db w) session message in
  let window := history_messages (with_message (db w) um) session um in
  let payload := build_messages_payload window message in
  (exists rest,
      log (model_path e session message ai_config w).2
        = log w ++ [EvCreate um; EvPost (model_call ai_config payload)] ++ rest)
  /\ payload = system_entry :: (history_entry <$> window)
                 ++ [{| entry_role := "user"; entry_content := VStr message |}]
  /\ (length window <= 10)%nat
  /\ length window = Nat.min 10 (length (prior_messages (db w) session))
  /\ (forall m, m ∈ window ->
        m ∈ prior_messages (db w) session /\ message_pk m ≠ message_pk um)
  /\ StronglySorted (fun a b => message_created_at a <= message_created_at b) window
  /\ (exists skipped,
        prior_messages (db w) session ≡ₚ window ++ skipped
        /\ forall m m', m ∈ skipped -> m' ∈ window ->
             message_created_at m <= message_created_at m')
  /\ (length payload <= 12)%nat.
Proof.
  intros um window payload.
  destruct (window_facts e (db w) session message) as (Hlen & Hin & Hsort & Hskip).
  fold um in Hlen, Hin, Hsort, Hskip. fold window in Hlen, Hin, Hsort, Hskip.
  assert (length window <= 10)%nat as Hle by lia.
  split; [|do 6 (split; [done|])].
  - rewrite model_path_unfold. fold um. fold window. fold payload. simpl.
    destruct (model_outcome_world e session ai_config um
                (World (with_message (db w) um)
                   ((log w ++ [EvCreate um]) ++ [EvPost (model_call ai_config payload)]))
                (env_upstream e (model_call ai_config payload)))
      as [->|(am & -> & _)]; simpl.
    + exists []. by rewrite <- app_assoc.
    + exists [EvCreate am]. by rewrite <- !app_assoc.
  - change (length (system_entry :: (history_entry <$> window)
                     ++ [{| entry_role := "user"; entry_content := VStr message |}])
            <= 12)%nat.
    simpl. rewrite length_app, length_fmap. simpl. lia.
Qed.

(** ** Provider selection *)

Section Selection.

Variable py_int : string -> option Z.


Local Ltac defaults :=
  destruct (List.find dify_is_active _); simpl; [done|];
  by destruct (List.find ai_is_active _).

Local Ltac dify_reference dify_config_id :=
  destruct (ident_truthy dify_config_id); simpl; [|defaults];
  destruct (to_pk py_int dify_config_id) as [?ex|[?z|]]; simpl;
  [ destruct (is_DoesNotExist _ || is_ValueError _); simpl; [defaults|done]
  | destruct (List.find (fun c => Z.eqb (dify_pk c) _) _); simpl; [done|defaults]
  | defaults ].

(** The selection of lines 81-108 leaves the world as it is, and picks
    what the first-match order picks; it raises when a lookup raises an
    exception other than the two it catches. *)
Lemma select_config_run model_id dify_config_id w :
  select_config py_int model_id dify_config_id w
  = (selected (resolve_provider py_int (db w) model_id dify_config_id), w).
Proof.
  unfold select_config, selected, resolve_provider, explicit_model, explicit_dify,
    ignored, AIModelConfig_get, DifyConfig_get, get_active_config,
    AIModelConfig_first_active, does_not_exist,
    try_except, bind, get_db, lift, ret, raise.
  destruct (ident_truthy model_id); simpl; [|dify_reference dify_config_id].
  destruct (to_pk py_int model_id) as [ex|[z|]]; simpl.
  - destruct (is_DoesNotExist ex || is_ValueError ex); simpl; [|done].
    dify_reference dify_config_id.
  - destruct (List.find (fun c => Z.eqb (ai_pk c) z && ai_is_active c) _);
      simpl; [done|].
    dify_reference dify_config_id.
  - dify_reference dify_config_id.
Qed.

(** What it is for an explicit reference to resolve. *)
Lemma explicit_model_Some d model_id c :
  explicit_model py_int d model_id = inr (Some c) ->
  ident_truthy model_id = true
  /\ to_pk py_int model_id = inr (Some (ai_pk c))
  /\ c ∈ ai_configs d /\ ai_is_active c = true.
Proof.
  unfold explicit_model, ignored. destruct (ident_truthy model_id); [|done].
  destruct (to_pk py_int model_id) as [ex|[z|]]; try done.
  - by destruct (_ || _).
  - intros [= Hf]. apply find_some in Hf as [Hin Hc].
    apply andb_true_iff in Hc as [Hz Ha]. apply Z.eqb_eq in Hz as <-.
    by rewrite <- list_elem_of_In in Hin.
Qed.

Lemma explicit_dify_Some d dify_config_id c :
  explicit_dify py_int d dify_config_id = inr (Some c) ->
  ident_truthy dify_config_id = true
  /\ to_pk py_int dify_config_id = inr (Some (dify_pk c))
  /\ c ∈ dify_configs d.
Proof.
  unfold explicit_dify, ignored. destruct (ident_truthy dify_config_id); [|done].
  destruct (to_pk py_int dify_config_id) as [ex|[z|]]; try done.
  - by destruct (_ || _).
  - intros [= Hf]. apply find_some in Hf as [Hin Hz].
    apply Z.eqb_eq in Hz as <-. by rewrite <- list_elem_of_In in Hin.
Qed.

(** An explicit Dify reference resolves whatever the active flag of the
    config it names. *)
Lemma explicit_dify_any_flag d dify_config_id c :
  ident_truthy dify_config_id = true ->
  to_pk py_int dify_config_id = inr (Some (dify_pk c)) ->
  c ∈ dify_configs d ->
  exists c', explicit_dify py_int d dify_config_id = inr (Some c').
Proof.
  intros Ht Hpk Hin. unfold explicit_dify. rewrite Ht, Hpk.
  destruct (List.find _ _) as [c'|] eqn:Hf; [by exists c'|].
  rewrite list_elem_of_In in Hin.
  apply (find_none _ _ Hf) in Hin. by rewrite Z.eqb_refl in Hin.
Qed.





(** A request that names a session of its sender and carries a text goes
    to the provider the first-match order picks; an exception of the
    selection leaves the view with nothing written. *)
Lemma send_message_run e req w sid msg session :
  req_session_id req = Some sid ->
  req_message req = Some msg ->
  sid ≠ "" -> msg ≠ "" ->
  owned_session (db w) sid (req_user req) = Some session ->
  send_message py_int e req w =
    match resolve_provider py_int (db w) (req_model_id req) (req_dify_config_id req) with
    | inr (Some (ModelProvider c)) => model_path e session msg c w
    | inr (Some (DifyProvider c)) => dify_path e req session msg c w
    | inr None => (inr no_provider, w)
    | inl ex => (inl ex, w)
    end.
Proof.
  intros Hsid Hmsg Hs Hm Hown. unfold send_message. rewrite Hsid, Hmsg.
  unfold text_truthy.
  apply String.eqb_neq in Hs, Hm. rewrite Hs, Hm. simpl.
  unfold bind at 1. unfold try_except, AssistantSession_get, bind, get_db.
  unfold owned_session in Hown. rewrite Hown. simpl.
  unfold bind. rewrite select_config_run.
  by destruct (resolve_provider _ _ _ _) as [ex|[[c|c]|]].
Qed.




Lemma unresolved_model_None d model_id :
  unresolved_model py_int d model_id ->
  explicit_model py_int d model_id = inr None.
Proof.
  unfold unresolved_model, explicit_model.
  destruct (ident_truthy model_id); [|done].
  destruct (to_pk py_int model_id) as [ex|[z|]]; try done.
  - intros Hun. unfold ignored, is_DoesNotExist, is_ValueError. by rewrite Hun.
  - intros Hun. destruct (List.find _ _) as [c|] eqn:Hf; [|done].
    apply find_some in Hf as [Hin Hc].
    apply andb_true_iff in Hc as [Hz Ha]. apply Z.eqb_eq in Hz.
    rewrite <- list_elem_of_In in Hin. by rewrite (Hun c Hin Hz) in Ha.
Qed.

Lemma unresolved_dify_None d dify_config_id :
  unresolved_dify py_int d dify_config_id ->
  explicit_dify py_int d dify_config_id = inr None.
Proof.
  unfold unresolved_dify, explicit_dify.
  destruct (ident_truthy dify_config_id); [|done].
  destruct (to_pk py_int dify_config_id) as [ex|[z|]]; try done.
  - intros Hun. unfold ignored, is_DoesNotExist, is_ValueError. by rewrite Hun.
  - intros Hun. destruct (List.find _ _) as [c|] eqn:Hf; [|done].
    apply find_some in Hf as [Hin Hz]. apply Z.eqb_eq in Hz.
    rewrite <- list_elem_of_In in Hin. by destruct (Hun c Hin).
Qed.

(** The view depends on the two references through the selection only. *)
Lemma send_message_ext e r1 r2 w :
  req_user r1 = req_user r2 ->
  req_session_id r1 = req_session_id r2 ->
  req_message r1 = req_message r2 ->
  resolve_provider py_int (db w) (req_model_id r1) (req_dify_config_id r1)
  = resolve_provider py_int (db w) (req_model_id r2) (req_dify_config_id r2) ->
  send_message py_int e r1 w = send_message py_int e r2 w.
Proof.
  intros Hu Hs Hm Hr. unfold send_message. rewrite Hu, Hs, Hm.
  destruct (req_session_id r2) as [sid|]; [|done].
  destruct (req_message r2) as [msg|]; [|done].
  destruct (_ || _); [done|].
  unfold bind.
  destruct (try_except _ _ w) as [[ex|[session|]] w'] eqn:Hget; try done.
  assert (w' = w) as ->.
  { revert Hget. unfold try_except, AssistantSession_get, bind, get_db,
      does_not_exist, raise, ret.
    destruct (List.find _ _); simpl; congruence. }
  rewrite !select_config_run, Hr. clear Hr.
  destruct (resolve_provider _ _ _ _) as [ex|[[c|c]|]]; simpl; try done.
  unfold dify_path. by rewrite Hu.
Qed.

(** An explicit model-config or Dify-config reference that does not
    resolve, because it is text that is no number, or names no config,
    or names a model config that is not active, is ignored: the request
    is served as the same request without the reference is, so that no
    error is returned for it and resolution goes on with the next rule.
    In particular such a model-config id together with a valid
    Dify-config id is served by that Dify config. *)
Theorem invalid_reference_ignored e req w :
  (unresolved_model py_int (db w) (req_model_id req) ->
     send_message py_int e req w = send_message py_int e (without_model_id req) w)
  /\ (unresolved_dify py_int (db w) (req_dify_config_id req) ->
      send_message py_int e req w
      = send_message py_int e (without_dify_config_id req) w)
  /\ (forall sid msg session c,
        req_session_id req = Some sid ->
        req_message req = Some msg ->
        sid ≠ "" -> msg ≠ "" ->
        owned_session (db w) sid (req_user req) = Some session ->
        unresolved_model py_int (db w) (req_model_id req) ->
        explicit_dify py_int (db w) (req_dify_config_id req) = inr (Some c) ->
        send_message py_int e req w = dify_path e req session msg c w).
Proof.
  split; [|split].
  - intros Hun. apply send_message_ext; try done. simpl.
    unfold resolve_provider. by rewrite (unresolved_model_None _ _ Hun).
  - intros Hun. apply send_message_ext; try done. simpl.
    unfold resolve_provider. by rewrite (unresolved_dify_None _ _ Hun).
  - intros sid msg session c Hsid Hmsg Hs Hm Hown Hun Hd.
    rewrite (send_message_run e req w sid msg session Hsid Hmsg Hs Hm Hown).
    unfold resolve_provider. by rewrite (unresolved_model_None _ _ Hun), Hd.
Qed.

End Selection.

(** ** The knowledge-base path, step by step *)

Lemma dify_path_unfold e req session message dify_config w :
  let um := user_row e (db w) session message in
  let o := dify_call req session message dify_config in
  let w1 := World (with_message (db w) um) ((log w ++ [EvCreate um]) ++ [EvPost o]) in
  dify_path e req session message dify_config w
  = dify_outcome e session um w1 (env_upstream e o).
Proof.
  intros um o w1. subst um o w1.
  unfold dify_path, dify_outcome, dify_reply, dify_handler, dify_call,
    user_row, new_row, with_message, with_session, with_conversation_id,
    ChatMessage_create, AssistantSession_save, requests_post,
    try_except, bind, get_db, put_db, emit, lift, ret, raise. simpl.
  assert (forall ex w',
            (if is_Timeout ex then ret dify_timeout
             else if is_RequestException ex then ret (dify_failure ex)
                  else raise ex) w'
            = if is_Timeout ex then (inr dify_timeout, w')
              else if is_RequestException ex then (inr (dify_failure ex), w')
                   else (inl ex, w')) as Hh.
  { intros ex w'. by destruct (is_Timeout ex), (is_RequestException ex). }
  unfold ret, raise, dify_timeout, dify_failure in Hh.
  match goal with
  | |- context [env_upstream e ?x] => destruct (env_upstream e x) as [ex|r]
  end; [apply Hh|]. simpl.
  destruct (Z.eqb (status_code r) 200); [|done].
  destruct (json r) as [ex|data]; [apply Hh|]. simpl.
  destruct (py_contains "conversation_id" data) as [ex|has_id]; [apply Hh|]. simpl.
  destruct (has_id && negb (truthy (session_conversation_id session))); simpl.
  - destruct (py_getitem_str data "conversation_id") as [ex|cid]; [apply Hh|]. simpl.
    destruct (py_get data "answer" (VStr "")) as [ex|answer]; [apply Hh|]. simpl.
    destruct (py_get data "conversation_id" VNone) as [ex|c]; [apply Hh|]. simpl.
    destruct (py_get data "message_id" VNone) as [ex|mid]; [apply Hh|]. simpl.
    by destruct answer.
  - destruct (py_get data "answer" (VStr "")) as [ex|answer]; [apply Hh|]. simpl.
    destruct (py_get data "conversation_id" VNone) as [ex|c]; [apply Hh|]. simpl.
    destruct (py_get data "message_id" VNone) as [ex|mid]; [apply Hh|]. simpl.
    by destruct answer.
Qed.

Lemma dify_handler_world ex w : (dify_handler ex w).2 = w.
Proof.
  unfold dify_handler. by destruct (is_Timeout ex), (is_RequestException ex).
Qed.

Lemma dify_reply_world e session um data w2 :
  (dify_reply e session um data w2).2 = w2
  \/ exists am,
       (dify_reply e session um data w2).2
       = World (with_message (db w2) am) (log w2 ++ [EvCreate am]).
Proof.
  unfold dify_reply.
  destruct (py_get data "answer" (VStr "")) as [ex|answer];
    [left; apply dify_handler_world|].
  destruct (py_get data "conversation_id" VNone) as [ex|c];
    [left; apply dify_handler_world|].
  destruct (py_get data "message_id" VNone) as [ex|mid];
    [left; apply dify_handler_world|].
  destruct (is_None answer); [left; apply dify_handler_world|].
  right. by eexists.
Qed.

Lemma model_outcome_failed e session ai_config um w1 r :
  upstream_failed r ->
  (model_outcome e session ai_config um w1 r).2 = w1.
Proof.
  unfold upstream_failed, model_outcome. destruct r as [ex|r]; [done|].
  intros Hne. apply Z.eqb_neq in Hne. by rewrite Hne.
Qed.

Lemma dify_outcome_failed e session um w1 r :
  upstream_failed r ->
  (dify_outcome e session um w1 r).2 = w1.
Proof.
  unfold upstream_failed, dify_outcome.
  destruct r as [ex|r]; [intros _; apply dify_handler_world|].
  intros Hne. apply Z.eqb_neq in Hne. by rewrite Hne.
Qed.

(** What a run of either path leaves behind: rows are only added to the
    message log, events only added to the trace. *)
Lemma model_outcome_grows e session ai_config um w1 r :
  exists rows evs,
    chat_messages (db (model_outcome e session ai_config um w1 r).2)
      = chat_messages (db w1) ++ rows
    /\ log (model_outcome e session ai_config um w1 r).2 = log w1 ++ evs.
Proof.
  destruct (model_outcome_world e session ai_config um w1 r) as [->|(am & -> & _)].
  - exists [], []. by rewrite !app_nil_r.
  - by exists [am], [EvCreate am].
Qed.

Lemma dify_outcome_grows e session um w1 r :
  exists rows evs,
    chat_messages (db (dify_outcome e session um w1 r).2)
      = chat_messages (db w1) ++ rows
    /\ log (dify_outcome e session um w1 r).2 = log w1 ++ evs.
Proof.
  assert (exists rows evs,
             chat_messages (db w1) = chat_messages (db w1) ++ rows
             /\ log w1 = log w1 ++ evs) as Hsame.
  { exists [], []. by rewrite !app_nil_r. }
  unfold dify_outcome.
  destruct r as [ex|r]; [by rewrite dify_handler_world|].
  destruct (Z.eqb (status_code r) 200); [|done].
  destruct (json r) as [ex|data]; [by rewrite dify_handler_world|].
  destruct (py_contains "conversation_id" data) as [ex|has_id];
    [by rewrite dify_handler_world|].
  destruct (has_id && negb (truthy (session_conversation_id session))).
  - destruct (py_getitem_str data "conversation_id") as [ex|cid];
      [by rewrite dify_handler_world|].
    simpl.
    match goal with
    | |- context [dify_reply e ?s um data ?w2] =>
        destruct (dify_reply_world e s um data w2) as [->|[am ->]]
    end; simpl.
    + exists [], [EvSave (with_conversation_id session (column_text e cid))].
      by rewrite app_nil_r.
    + exists [am], [EvSave (with_conversation_id session (column_text e cid));
                    EvCreate am].
      by rewrite <- app_assoc.
  - destruct (dify_reply_world e session um data w1) as [->|[am ->]]; [done|].
    by exists [am], [EvCreate am].
Qed.

(** ** Persistence and failures *)

Section Failures.

Variable py_int : string -> option Z.

(** A dispatch that reaches a provider inserts the user's row, makes the
    call, and goes on from the upstream's answer. *)
Lemma send_message_provider e req w sid msg session p :
  req_session_id req = Some sid ->
  req_message req = Some msg ->
  sid ≠ "" -> msg ≠ "" ->
  owned_session (db w) sid (req_user req) = Some session ->
  resolve_provider py_int (db w) (req_model_id req) (req_dify_config_id req) = inr (Some p) ->
  let um := user_row e (db w) session msg in
  let d1 := with_message (db w) um in
  let o := provider_call p req session msg d1 um in
  let w1 := World d1 ((log w ++ [EvCreate um]) ++ [EvPost o]) in
  send_message py_int e req w =
    match p with
    | ModelProvider c =>
        (inr (model_outcome e session c um w1 (env_upstream e o)).1,
         (model_outcome e session c um w1 (env_upstream e o)).2)
    | DifyProvider c => dify_outcome e session um w1 (env_upstream e o)
    end.
Proof.
  intros Hsid Hmsg Hs Hm Hown Hp um d1 o w1.
  rewrite (send_message_run py_int e req w sid msg session Hsid Hmsg Hs Hm Hown), Hp.
  destruct p as [c|c].
  - apply model_path_unfold.
  - apply dify_path_unfold.
Qed.

(** C5.  A dispatch that reaches a resolved provider persists the user's
    message before it makes the outbound call, and the message stays
    persisted whatever comes back.  When the call fails (a status other
    than 200, a timeout, any exception) nothing is rolled back and no
    assistant message is created: the dispatch leaves the database with
    the user's row added, and nothing else. *)
Theorem user_message_recorded_before_call e req w sid msg session p :
  req_session_id req = Some sid ->
  req_message req = Some msg ->
  sid ≠ "" -> msg ≠ "" ->
  owned_session (db w) sid (req_user req) = Some session ->
  resolve_provider py_int (db w) (req_model_id req) (req_dify_config_id req) = inr (Some p) ->
  let um := user_row e (db w) session msg in
  let d1 := with_message (db w) um in
  let o := provider_call p req session msg d1 um in
  let w' := (send_message py_int e req w).2 in
  (exists rest, log w' = log w ++ [EvCreate um; EvPost o] ++ rest)
  /\ (exists rows, chat_messages (db w') = chat_messages (db w) ++ um :: rows)
  /\ (upstream_failed (env_upstream e o) ->
      db w' = d1
      /\ log w' = log w ++ [EvCreate um; EvPost o]
      /\ chat_messages (db w') = chat_messages (db w) ++ [um]).
Proof.
  intros Hsid Hmsg Hs Hm Hown Hp um d1 o w'. subst w'.
  rewrite (send_message_provider e req w sid msg session p Hsid Hmsg Hs Hm Hown Hp).
  fold um. fold d1. fold o.
  set (w1 := World d1 ((log w ++ [EvCreate um]) ++ [EvPost o])).
  assert (log w1 = log w ++ [EvCreate um; EvPost o]) as Hlog.
  { simpl. by rewrite <- app_assoc. }
  assert (chat_messages (db w1) = chat_messages (db w) ++ [um]) as Hrows by done.
  destruct p as [c|c]; simpl.
  - destruct (model_outcome_grows e session c um w1 (env_upstream e o))
      as (rows & evs & Hr & Hl).
    split; [|split].
    + exists evs. by rewrite Hl, Hlog, <- app_assoc.
    + exists rows. by rewrite Hr, Hrows, <- app_assoc.
    + intros Hf. by rewrite (model_outcome_failed _ _ _ _ _ _ Hf).
  - destruct (dify_outcome_grows e session um w1 (env_upstream e o))
      as (rows & evs & Hr & Hl).
    split; [|split].
    + exists evs. by rewrite Hl, Hlog, <- app_assoc.
    + exists rows. by rewrite Hr, Hrows, <- app_assoc.
    + intros Hf. by rewrite (dify_outcome_failed _ _ _ _ _ Hf).
Qed.

(** A request lacking one of its two required inputs is refused at once. *)
Lemma send_message_missing e req w :
  text_truthy (req_session_id req) = false \/ text_truthy (req_message req) = false ->
  send_message py_int e req w = (inr missing_input, w).
Proof.
  unfold send_message.
  destruct (req_session_id req) as [sid|], (req_message req) as [msg|];
    intros [H|H]; try done; rewrite H; try done.
  by rewrite orb_true_r.
Qed.

(** A session that is not there for the sender is reported missing. *)
Lemma send_message_no_session e req w sid msg :
  req_session_id req = Some sid ->
  req_message req = Some msg ->
  sid ≠ "" -> msg ≠ "" ->
  owned_session (db w) sid (req_user req) = None ->
  send_message py_int e req w = (inr session_missing, w).
Proof.
  intros Hsid Hmsg Hs Hm Hown. unfold send_message. rewrite Hsid, Hmsg.
  unfold text_truthy. apply String.eqb_neq in Hs, Hm. rewrite Hs, Hm. simpl.
  unfold bind at 1. unfold try_except, AssistantSession_get, bind, get_db.
  unfold owned_session in Hown. by rewrite Hown.
Qed.

(** A session of another user is not there for the sender. *)
Lemma owned_session_other_user d sid user :
  (forall s, s ∈ sessions d -> session_id s = sid -> session_user s ≠ user) ->
  owned_session d sid user = None.
Proof.
  intros Hother. unfold owned_session.
  destruct (List.find _ _) as [s|] eqn:Hf; [|done].
  apply find_some in Hf as [Hin Hc].
  apply andb_true_iff in Hc as [Hi Hu].
  apply String.eqb_eq in Hi. apply Z.eqb_eq in Hu.
  rewrite <- list_elem_of_In in Hin. by destruct (Hother s Hin Hi).
Qed.

(** C6.  The failures of [send_message] and their statuses: a missing
    session id or message text is answered 400 with nothing persisted
    and no provider contacted; a session that does not exist, or belongs
    to another user, 404; no provider configured, 400; an upstream status
    other than 200, 500 with the upstream status and raw body in the
    payload; an upstream timeout, 408 on the knowledge-base path and only
    there (on the model path it is a 500 like any other exception); any
    other transport exception, 500 with the exception message. *)
Theorem failure_statuses e req w :
  (text_truthy (req_session_id req) = false \/ text_truthy (req_message req) = false ->
     send_message py_int e req w = (inr missing_input, w)
     /\ resp_status missing_input = 400)
  /\ (forall sid msg,
        req_session_id req = Some sid -> req_message req = Some msg ->
        sid ≠ "" -> msg ≠ "" ->
        (owned_session (db w) sid (req_user req) = None
         \/ forall s, s ∈ sessions (db w) -> session_id s = sid ->
                      session_user s ≠ req_user req) ->
        send_message py_int e req w = (inr session_missing, w)
        /\ resp_status session_missing = 404)
  /\ (forall sid msg session,
        req_session_id req = Some sid -> req_message req = Some msg ->
        sid ≠ "" -> msg ≠ "" ->
        owned_session (db w) sid (req_user req) = Some session ->
        let um := user_row e (db w) session msg in
        let d1 := with_message (db w) um in
        let choice := resolve_provider py_int (db w) (req_model_id req)
                        (req_dify_config_id req) in
        (choice = inr None ->
           send_message py_int e req w = (inr no_provider, w)
           /\ resp_status no_provider = 400)
        /\ (forall p r,
              choice = inr (Some p) ->
              env_upstream e (provider_call p req session msg d1 um) = inr r ->
              status_code r ≠ 200 ->
              exists prefix,
                (send_message py_int e req w).1
                = inr (Response
                         (ErrorData (prefix +:+ pretty (status_code r)) (Some (text r)))
                         500))
        /\ (forall c ex,
              choice = inr (Some (DifyProvider c)) ->
              env_upstream e (provider_call (DifyProvider c) req session msg d1 um)
                = inl ex ->
              is_Timeout ex = true ->
              (send_message py_int e req w).1
              = inr (Response (ErrorData "API请求超时" None) 408))
        /\ (forall c ex,
              choice = inr (Some (DifyProvider c)) ->
              env_upstream e (provider_call (DifyProvider c) req session msg d1 um)
                = inl ex ->
              is_RequestException ex = true -> is_Timeout ex = false ->
              (send_message py_int e req w).1
              = inr (Response (ErrorData ("API请求失败: " +:+ exn_str ex) None) 500))
        /\ (forall c ex,
              choice = inr (Some (ModelProvider c)) ->
              env_upstream e (provider_call (ModelProvider c) req session msg d1 um)
                = inl ex ->
              (send_message py_int e req w).1
              = inr (Response (ErrorData ("AI请求失败: " +:+ exn_str ex) None) 500))).
Proof.
  split; [|split].
  - intros H. by rewrite (send_message_missing e req w H).
  - intros sid msg Hsid Hmsg Hs Hm Hown. split; [|done].
    apply (send_message_no_session e req w sid msg); try done.
    destruct Hown as [H|H]; [done|]. by apply owned_session_other_user.
  - intros sid msg session Hsid Hmsg Hs Hm Hown um d1 choice.
    split; [|split; [|split; [|split]]].
    + intros Hc. split; [|done].
      rewrite (send_message_run py_int e req w sid msg session Hsid Hmsg Hs Hm Hown).
      fold choice. by rewrite Hc.
    + intros p r Hc Hup Hne.
      rewrite (send_message_provider e req w sid msg session p
                 Hsid Hmsg Hs Hm Hown Hc).
      fold um. fold d1. rewrite Hup. apply Z.eqb_neq in Hne.
      destruct p as [c|c]; simpl; rewrite Hne; by eexists.
    + intros c ex Hc Hup Ht.
      rewrite (send_message_provider e req w sid msg session _
                 Hsid Hmsg Hs Hm Hown Hc).
      fold um. fold d1. rewrite Hup. simpl. unfold dify_handler. by rewrite Ht.
    + intros c ex Hc Hup Hr Ht.
      rewrite (send_message_provider e req w sid msg session _
                 Hsid Hmsg Hs Hm Hown Hc).
      fold um. fold d1. rewrite Hup. simpl. unfold dify_handler.
      by rewrite Ht, Hr.
    + intros c ex Hc Hup.
      rewrite (send_message_provider e req w sid msg session _
                 Hsid Hmsg Hs Hm Hown Hc).
      fold um. fold d1. by rewrite Hup.
Qed.

(** ** Replies of the model path *)

Lemma model_outcome_reply e session ai_config um w1 r um' am cid used st :
  (model_outcome e session ai_config um w1 r).1
    = Response (ReplyData um' am cid used) st ->
  um' = um
  /\ message_conversation_id am = session_conversation_id session
  /\ cid = session_conversation_id session
  /\ (model_outcome e session ai_config um w1 r).2
     = World (with_message (db w1) am) (log w1 ++ [EvCreate am]).
Proof.
  unfold model_outcome.
  destruct r as [ex|r]; [done|].
  destruct (Z.eqb (status_code r) 200); [|done].
  destruct (json r) as [ex|api_data]; [done|].
  destruct (answer_content api_data) as [ex|answer]; [done|].
  destruct (py_get api_data "id" VNone) as [ex|mid]; [done|].
  destruct (is_None answer); [done|].
  simpl. by intros [= <- <- <- _ _].
Qed.


Local Ltac fin :=
  first [ by eexists
        | eexists; split; [|split; [|reflexivity]]; done ].

(** What the model path makes of a 200 response whose body was decoded:
    a reply when the body reads as section 6 expects, the
    request-failure response otherwise, with nothing written. *)
Lemma model_outcome_decoded e session ai_config um w1 r api_data :
  status_code r = 200 ->
  json r = inr api_data ->
  match first_choice_content api_data with
  | Some answer =>
      exists am,
        message_role am = "assistant"
        /\ message_content am = column_text e answer
        /\ model_outcome e session ai_config um w1 (inr r)
           = (Response
                (ReplyData um am (session_conversation_id session) (ai_name ai_config))
                HTTP_200_OK,
              World (with_message (db w1) am) (log w1 ++ [EvCreate am]))
  | None =>
      exists ex, model_outcome e session ai_config um w1 (inr r) = (model_failure ex, w1)
  end.
Proof.
  intros Hst Hjs. unfold model_outcome. rewrite Hst, Hjs. simpl.
  destruct api_data as [|b|z|s|l|fields]; simpl; try (fin).
  - unfold answer_content. simpl.
    destruct (str_contains s "choices"); simpl; fin.
  - unfold answer_content. simpl.
    destruct (existsb (value_is_str "choices") l); simpl; fin.
  - unfold answer_content. simpl.
    destruct (assoc_get fields "id") as [mid|];
      (destruct (assoc_get fields "choices") as [choices|]; simpl;
         [|fin]);
      (destruct choices as [|b|z|s|l|d]; simpl; try (fin));
      [ destruct s as [|a s]; simpl; fin
      | destruct l as [|choice rest]; simpl; [fin|]
      | destruct d as [|kv d]; simpl; fin
      | destruct s as [|a s]; simpl; fin
      | destruct l as [|choice rest]; simpl; [fin|]
      | destruct d as [|kv d]; simpl; fin ];
      (destruct choice as [|b|z|s|l|choice]; simpl; try (fin));
      (destruct (assoc_get choice "message") as [message|]; simpl;
         [|fin]);
      (destruct message as [|b|z|s|l|message]; simpl; try (fin));
      (destruct (assoc_get message "content") as [content|]; simpl;
         [|fin]);
      destruct content; simpl; fin.
Qed.

(** C8, as the code has it.  On the model path, for an upstream HTTP 200
    response: when the body decodes to a JSON object in which [choices]
    is absent or empty, the assistant reply is the empty string; when
    [choices] is an array whose first element is an object with a
    [message] object that carries a [content] other than null, the reply
    is that content, as a column of text stores it, the text itself when
    it is text.  In these cases the request succeeds with status 200, and
    an assistant message with that content is persisted after the user's
    and returned.  Every other 200 response, one whose body is not JSON,
    does not decode to an object, or cannot be read this way, is answered
    by the request-failure response, status 500, and nothing but the
    user's row is persisted. *)
Theorem first_choice_reply e req w sid msg session c r :
  req_session_id req = Some sid ->
  req_message req = Some msg ->
  sid ≠ "" -> msg ≠ "" ->
  owned_session (db w) sid (req_user req) = Some session ->
  resolve_provider py_int (db w) (req_model_id req) (req_dify_config_id req)
    = inr (Some (ModelProvider c)) ->
  let um := user_row e (db w) session msg in
  let d1 := with_message (db w) um in
  let o := provider_call (ModelProvider c) req session msg d1 um in
  env_upstream e o = inr r ->
  status_code r = 200 ->
  let replied (answer : value) :=
    exists am,
      message_role am = "assistant"
      /\ message_content am = column_text e answer
      /\ send_message py_int e req w
         = (inr (Response
                   (ReplyData um am (session_conversation_id session) (ai_name c))
                   200),
            World (with_message d1 am)
                  (log w ++ [EvCreate um; EvPost o; EvCreate am])) in
  let failed :=
    exists ex,
      send_message py_int e req w
      = (inr (model_failure ex), World d1 (log w ++ [EvCreate um; EvPost o]))
      /\ resp_status (model_failure ex) = 500 in
  match json r with
  | inl _ => failed
  | inr api_data =>
      match first_choice_content api_data with
      | Some answer => replied answer
      | None => failed
      end
  end
  /\ (forall fields,
        json r = inr (VDict fields) ->
        (assoc_get fields "choices" = None
         \/ assoc_get fields "choices" = Some (VList []) ->
         replied (VStr ""))
        /\ (forall choice rest message answer,
              assoc_get fields "choices" = Some (VList (VDict choice :: rest)) ->
              assoc_get choice "message" = Some (VDict message) ->
              assoc_get message "content" = Some (VStr answer) ->
              replied (VStr answer))
        /\ (forall choice rest message,
              assoc_get fields "choices" = Some (VList (VDict choice :: rest)) ->
              assoc_get choice "message" = Some (VDict message) ->
              assoc_get message "content" = Some VNone ->
              failed)).
Proof.
  intros Hsid Hmsg Hs Hm Hown Hp um d1 o Hup Hst replied failed.
  assert (send_message py_int e req w
          = (inr (model_outcome e session c um
                    (World d1 ((log w ++ [EvCreate um]) ++ [EvPost o])) (inr r)).1,
             (model_outcome e session c um
                (World d1 ((log w ++ [EvCreate um]) ++ [EvPost o])) (inr r)).2))
    as Hrun.
  { rewrite (send_message_provider e req w sid msg session _ Hsid Hmsg Hs Hm Hown Hp).
    fold um. fold d1. fold o. by rewrite Hup. }
  assert (match json r with
          | inl _ => failed
          | inr api_data =>
              match first_choice_content api_data with
              | Some answer => replied answer
              | None => failed
              end
          end) as Hall.
  { destruct (json r) as [ex|api_data] eqn:Hjs.
    - exists ex. rewrite Hrun. unfold model_outcome. rewrite Hst, Hjs. simpl.
      by rewrite <- app_assoc.
    - pose proof (model_outcome_decoded e session c um
                    (World d1 ((log w ++ [EvCreate um]) ++ [EvPost o]))
                    r api_data Hst Hjs) as H.
      destruct (first_choice_content api_data) as [answer|].
      + destruct H as (am & H1 & H2 & H3). exists am.
        split; [done|]. split; [done|]. rewrite Hrun, H3. simpl.
        by rewrite <- !app_assoc.
      + destruct H as (ex & H). exists ex. rewrite Hrun, H. simpl.
        by rewrite <- app_assoc. }
  split; [exact Hall|].
  intros fields Hjs. rewrite Hjs in Hall. simpl in Hall.
  split; [|split].
  - intros [H|H]; by rewrite H in Hall.
  - intros choice rest message answer H1 H2 H3.
    by rewrite H1, H2, H3 in Hall.
  - intros choice rest message H1 H2 H3.
    by rewrite H1, H2, H3 in Hall.
Qed.

End Failures.

(** ** The conversation id of a session *)

Section ConversationId.

Variable py_int : string -> option Z.

(** A dispatch either stops before any effect, or reaches a provider for
    a session of the sender. *)
Lemma send_message_cases e req w :
  (send_message py_int e req w).2 = w
  \/ exists sid msg session p,
       req_session_id req = Some sid /\ req_message req = Some msg
       /\ sid ≠ "" /\ msg ≠ ""
       /\ owned_session (db w) sid (req_user req) = Some session
       /\ resolve_provider py_int (db w) (req_model_id req) (req_dify_config_id req)
          = inr (Some p).
Proof.
  destruct (text_truthy (req_session_id req)) eqn:Ts;
    [|left; rewrite send_message_missing; auto].
  destruct (text_truthy (req_message req)) eqn:Tm;
    [|left; rewrite send_message_missing; auto].
  destruct (req_session_id req) as [sid|] eqn:Hsid; [|done].
  destruct (req_message req) as [msg|] eqn:Hmsg; [|done].
  simpl in Ts, Tm.
  apply negb_true_iff in Ts, Tm. apply String.eqb_neq in Ts, Tm.
  destruct (owned_session (db w) sid (req_user req)) as [session|] eqn:Hown.
  - destruct (resolve_provider py_int (db w) (req_model_id req)
                (req_dify_config_id req)) as [ex|[p|]] eqn:Hp.
    + left. rewrite (send_message_run py_int e req w sid msg session); try done.
      by rewrite Hp.
    + right. by exists sid, msg, session, p.
    + left. rewrite (send_message_run py_int e req w sid msg session); try done.
      by rewrite Hp.
  - left. by rewrite (send_message_no_session py_int e req w sid msg).
Qed.

Lemma owned_session_elem d sid user session :
  owned_session d sid user = Some session -> session ∈ sessions d.
Proof.
  unfold owned_session. intros Hf. apply find_some in Hf as [Hin _].
  by rewrite list_elem_of_In.
Qed.

(** The knowledge-base path writes the session at most once, and only
    when the conversation id it holds is null or empty. *)
Lemma dify_outcome_sessions e session um w1 r :
  (sessions (db (dify_outcome e session um w1 r).2) = sessions (db w1)
   /\ forall s, EvSave s ∈ log (dify_outcome e session um w1 r).2 ->
                EvSave s ∈ log w1)
  \/ (truthy (session_conversation_id session) = false
      /\ exists cid,
           sessions (db (dify_outcome e session um w1 r).2)
           = sessions (with_session (db w1) (with_conversation_id session cid))
           /\ forall s, EvSave s ∈ log (dify_outcome e session um w1 r).2 ->
                        EvSave s ∈ log w1 \/ s = with_conversation_id session cid).
Proof.
  assert (forall s w2 data,
             sessions (db (dify_reply e s um data w2).2) = sessions (db w2)
             /\ forall s', EvSave s' ∈ log (dify_reply e s um data w2).2 ->
                           EvSave s' ∈ log w2) as Hreply.
  { intros s w2 data.
    destruct (dify_reply_world e s um data w2) as [->|[am ->]]; [done|].
    split; [done|]. simpl. intros s' H.
    apply elem_of_app in H as [H|H]; [done|].
    by apply list_elem_of_singleton in H. }
  unfold dify_outcome.
  destruct r as [ex|r]; [left; by rewrite dify_handler_world|].
  destruct (Z.eqb (status_code r) 200); [|by left].
  destruct (json r) as [ex|data]; [left; by rewrite dify_handler_world|].
  destruct (py_contains "conversation_id" data) as [ex|has_id];
    [left; by rewrite dify_handler_world|].
  destruct (has_id && negb (truthy (session_conversation_id session))) eqn:Hb;
    [|left; apply Hreply].
  apply andb_true_iff in Hb as [_ Hb]. apply negb_true_iff in Hb.
  destruct (py_getitem_str data "conversation_id") as [ex|cid];
    [left; by rewrite dify_handler_world|].
  right. split; [done|]. exists (column_text e cid). simpl.
  match goal with
  | |- context [dify_reply e ?s um data ?w2] =>
      destruct (Hreply s w2 data) as [-> Hl]
  end.
  split; [done|]. intros s H. apply Hl in H. simpl in H.
  apply elem_of_app in H as [H|H]; [by left|].
  apply list_elem_of_singleton in H. right. by injection H.
Qed.

(** One dispatch and the session table. *)
Lemma send_message_sessions e req w :
  (sessions (db (send_message py_int e req w).2) = sessions (db w)
   /\ forall s, EvSave s ∈ log (send_message py_int e req w).2 -> EvSave s ∈ log w)
  \/ exists session cid,
       session ∈ sessions (db w)
       /\ truthy (session_conversation_id session) = false
       /\ sessions (db (send_message py_int e req w).2)
          = sessions (with_session (db w) (with_conversation_id session cid))
       /\ forall s, EvSave s ∈ log (send_message py_int e req w).2 ->
                    EvSave s ∈ log w \/ s = with_conversation_id session cid.
Proof.
  destruct (send_message_cases e req w)
    as [->|(sid & msg & session & p & Hsid & Hmsg & Hs & Hm & Hown & Hp)];
    [by left|].
  rewrite (send_message_provider py_int e req w sid msg session p
             Hsid Hmsg Hs Hm Hown Hp).
  set (um := user_row e (db w) session msg).
  set (o := provider_call p req session msg (with_message (db w) um) um).
  set (w1 := World (with_message (db w) um) ((log w ++ [EvCreate um]) ++ [EvPost o])).
  assert (forall s, EvSave s ∈ log w1 -> EvSave s ∈ log w) as Hw1.
  { simpl. intros s H. repeat (apply elem_of_app in H as [H|H]); try done;
      by apply list_elem_of_singleton in H. }
  destruct p as [c|c]; simpl.
  - left.
    destruct (model_outcome_world e session c um w1 (env_upstream e o))
      as [->|(am & -> & _)]; (split; [done|]); [done|].
    simpl. intros s H. repeat (apply elem_of_app in H as [H|H]); try done;
      by apply list_elem_of_singleton in H.
  - destruct (dify_outcome_sessions e session um w1 (env_upstream e o))
      as [[Hse Hl]|(Hf & cid & Hse & Hl)].
    + left. split; [done|]. intros s H. by apply Hw1, Hl.
    + right. exists session, cid.
      split; [by eapply owned_session_elem|]. split; [done|]. split; [done|].
      intros s H. apply Hl in H as [H|H]; [left; by apply Hw1|by right].
Qed.

Lemma with_session_pks d s :
  session_pk <$> sessions (with_session d s) = session_pk <$> sessions d.
Proof.
  unfold with_session. simpl.
  induction (sessions d) as [|r l IH]; [done|]. simpl in *.
  f_equal; [|exact IH].
  destruct (Z.eqb (session_pk r) (session_pk s)) eqn:E; [|done].
  by apply Z.eqb_eq in E.
Qed.

Lemma with_session_lookup d s (i : nat) r :
  sessions d !! i = Some r ->
  session_pk r ≠ session_pk s ->
  sessions (with_session d s) !! i = Some r.
Proof.
  intros Hi Hne. unfold with_session. simpl.
  change (map ?f ?l) with (f <$> l).
  rewrite list_lookup_fmap, Hi. simpl.
  apply Z.eqb_neq in Hne. by rewrite Hne.
Qed.

(** One dispatch keeps every session row whose conversation id is set. *)
Lemma send_message_keeps_bound e req w (i : nat) s :
  NoDup (session_pk <$> sessions (db w)) ->
  sessions (db w) !! i = Some s ->
  truthy (session_conversation_id s) = true ->
  sessions (db (send_message py_int e req w).2) !! i = Some s
  /\ session_pk <$> sessions (db (send_message py_int e req w).2)
     = session_pk <$> sessions (db w).
Proof.
  intros Hnd Hi Ht.
  destruct (send_message_sessions e req w)
    as [[-> _]|(session & cid & Hin & Hf & -> & _)]; [done|].
  split; [|apply with_session_pks].
  apply with_session_lookup; [done|]. simpl. intros Hpk.
  apply list_elem_of_lookup in Hin as [j Hj].
  assert (i = j) as ->.
  { eapply NoDup_lookup; [exact Hnd| |].
    - by rewrite list_lookup_fmap, Hi.
    - by rewrite list_lookup_fmap, Hj, Hpk. }
  congruence.
Qed.

(** C4, as the code has it.  A session's provider conversation id, once
    set to a non-empty value, is never overwritten by any later
    [send_message] dispatch, whatever conversation ids later replies
    carry; and a dispatch saves a session only when the conversation id
    the session held was null or empty. *)
Theorem bound_conversation_id_never_overwritten l w (i : nat) s :
  NoDup (session_pk <$> sessions (db w)) ->
  sessions (db w) !! i = Some s ->
  truthy (session_conversation_id s) = true ->
  sessions (db (run_dispatches py_int l w)) !! i = Some s
  /\ (forall e req s',
        EvSave s' ∈ log (send_message py_int e req w).2 ->
        EvSave s' ∈ log w
        \/ exists s0 cid,
             s0 ∈ sessions (db w)
             /\ truthy (session_conversation_id s0) = false
             /\ s' = with_conversation_id s0 cid).
Proof.
  intros Hnd Hi Ht. split.
  - revert w Hnd Hi. induction l as [|[e req] l IH]; intros w Hnd Hi; [done|].
    simpl.
    destruct (send_message_keeps_bound e req w i s Hnd Hi Ht) as [Hi' Hpk].
    apply IH; [by rewrite Hpk|done].
  - intros e req s' H.
    destruct (send_message_sessions e req w)
      as [[_ Hl]|(s0 & cid & Hin & Hf & _ & Hl)].
    + left. by apply Hl.
    + destruct (Hl s' H) as [H'|H']; [by left|]. right. by exists s0, cid.
Qed.

End ConversationId.

(** * Examples *)


(** C2, where the code departs from it.  A model-config id that is
    malformed by being a JSON array is not ignored: the lookup raises a
    [TypeError], which the handler of line 89 does not catch, and the
    exception leaves the view with nothing written, although the request
    carries a valid Dify-config id; the same request without the
    model-config id is served by that Dify config. *)
Lemma array_reference_raises :
  let e := answering (kb_reply "abc") in
  let w := installation VNone in
  let req := ask (IdArray [VInt 1]) (IdInt 5) in
  (exists ex, send_message decimal_int e req w = (inl ex, w)
              /\ exn_cls ex = TypeError)
  /\ explicit_dify decimal_int (db w) (IdInt 5) = inr (Some kb)
  /\ send_message decimal_int e (without_model_id req) w
     = dify_path e (without_model_id req) (thread VNone) "hello" kb w.
Proof.
  split; [|split; reflexivity]. eexists. split; reflexivity.
Qed.

Lemma invalid_reference_ignored_witness :
  unresolved_model decimal_int (db (installation VNone)) (IdStr "abc")
  /\ send_message decimal_int (answering timed_out) (ask (IdStr "abc") (IdInt 5))
       (installation VNone)
     = dify_path (answering timed_out) (ask (IdStr "abc") (IdInt 5)) (thread VNone)
         "hello" kb (installation VNone).
Proof.
  split; [reflexivity|].
  destruct (invalid_reference_ignored decimal_int (answering timed_out)
              (ask (IdStr "abc") (IdInt 5)) (installation VNone)) as (_ & _ & H).
  apply (H "s-1" "hello" (thread VNone) kb);
    [reflexivity|reflexivity|discriminate|discriminate|reflexivity|reflexivity
    |reflexivity].
Defined.


Lemma bound_conversation_id_never_overwritten_witness :
  truthy (VStr "abc") = true
  /\ sessions (db (run_dispatches decimal_int
                     [(answering (kb_reply "xyz"), ask IdNone (IdInt 5));
                      (answering (kb_reply "uvw"), ask IdNone (IdInt 5))]
                     (installation (VStr "abc")))) !! 0%nat
     = Some (thread (VStr "abc")).
Proof.
  split; [reflexivity|].
  apply (bound_conversation_id_never_overwritten decimal_int
           [(answering (kb_reply "xyz"), ask IdNone (IdInt 5));
            (answering (kb_reply "uvw"), ask IdNone (IdInt 5))]
           (installation (VStr "abc")) 0 (thread (VStr "abc")));
    [apply NoDup_singleton|reflexivity|reflexivity].
Defined.

Lemma user_message_recorded_before_call_witness :
  upstream_failed timed_out
  /\ chat_messages
       (db (send_message decimal_int (answering timed_out) (ask IdNone (IdInt 5))
              (installation VNone)).2)
     = [] ++ [user_row (answering timed_out) (db (installation VNone))
                (thread VNone) "hello"].
Proof.
  split; [exact I|].
  destruct (user_message_recorded_before_call decimal_int (answering timed_out)
              (ask IdNone (IdInt 5)) (installation VNone)
              "s-1" "hello" (thread VNone) (DifyProvider kb))
    as (_ & _ & H);
    [reflexivity|reflexivity|discriminate|discriminate|reflexivity|reflexivity|].
  destruct (H I) as (_ & _ & H3). exact H3.
Defined.

Lemma failure_statuses_witness :
  (send_message decimal_int (answering overloaded) (ask (IdInt 1) IdNone)
     (installation VNone)).1
  = inr (Response (ErrorData "AI Model API错误: 503" (Some "overloaded")) 500)
  /\ (send_message decimal_int (answering timed_out) (ask IdNone (IdInt 5))
        (installation VNone)).1
     = inr (Response (ErrorData "API请求超时" None) 408).
Proof.
  destruct (failure_statuses decimal_int (answering timed_out)
              (ask IdNone (IdInt 5)) (installation VNone)) as (_ & _ & H).
  destruct (H "s-1" "hello" (thread VNone))
    as (_ & _ & Ht & _);
    [reflexivity|reflexivity|discriminate|discriminate|reflexivity|].
  split; [reflexivity|].
  apply (Ht kb (Exn Timeout "Read timed out.")); reflexivity.
Defined.


Lemma first_choice_reply_witness :
  exists am,
    message_content am = VStr "pong"
    /\ (send_message decimal_int
          (answering (ok_body (VDict [("choices",
             VList [VDict [("message", VDict [("content", VStr "pong")])]])])))
          (ask (IdInt 1) IdNone) (installation VNone)).1
       = inr (Response
                (ReplyData
                   (user_row (answering (ok_body VNone)) (db (installation VNone))
                      (thread VNone) "hello")
                   am VNone "gpt")
                200).
Proof.
  destruct (first_choice_reply decimal_int
              (answering (ok_body (VDict [("choices",
                 VList [VDict [("message", VDict [("content", VStr "pong")])]])])))
              (ask (IdInt 1) IdNone) (installation VNone)
              "s-1" "hello" (thread VNone) gpt
              {| status_code := 200; text := "(body)";
                 json := inr (VDict [("choices",
                   VList [VDict [("message", VDict [("content", VStr "pong")])]])]) |})
    as [H _];
    [reflexivity|reflexivity|discriminate|discriminate|reflexivity|reflexivity
    |reflexivity|reflexivity|].
  simpl in H. destruct H as (am & _ & Hc & Hs).
  exists am. split; [exact Hc|]. by rewrite Hs.
Defined.

(** A conversation id that is not null is overwritten all the same when
    it is the empty string: the first reply binds the session to the
    empty id it carries, the second reply replaces it. *)
Lemma empty_conversation_id_overwritten :
  let first := (answering (kb_reply ""), ask IdNone (IdInt 5)) in
  let second := (answering (kb_reply "abc"), ask IdNone (IdInt 5)) in
  sessions (db (run_dispatches decimal_int [first] (installation VNone)))
    = [thread (VStr "")]
  /\ VStr "" ≠ VNone
  /\ sessions (db (run_dispatches decimal_int [first; second] (installation VNone)))
     = [thread (VStr "abc")].
Proof. split; [reflexivity|]. split; [discriminate|reflexivity]. Qed.

(** An upstream HTTP 200 response does not always yield a reply: when
    the body is a JSON array, so that [choices] is absent, and when the
    first choice carries no [message], the request fails with status 500
    and no assistant message is persisted. *)
Lemma ok_response_without_reply :
  let sent body :=
    send_message decimal_int (answering (ok_body body)) (ask (IdInt 1) IdNone)
      (installation VNone) in
  let um := user_row (answering (ok_body VNone)) (db (installation VNone))
              (thread VNone) "hello" in
  status_of (sent (VList [])).1 = Some 500
  /\ chat_messages (db (sent (VList [])).2) = [um]
  /\ status_of (sent (VDict [("choices", VList [VDict [("text", VStr "pong")]])])).1
     = Some 500
  /\ chat_messages
       (db (sent (VDict [("choices", VList [VDict [("text", VStr "pong")]])])).2)
     = [um].
Proof. repeat split. Qed.

(** * Further properties of the view *)

(** ** The completion URL *)

Lemma lstrip_char_id c s :
  startswith s (String c "") = false -> lstrip_char c s = s.
Proof.
  destruct s as [|a s]; [done|]. simpl.
  rewrite Ascii.eqb_sym. destruct (Ascii.eqb a c); [|done].
  by destruct s.
Qed.

Lemma rstrip_id c s :
  endswith s (String c "") = false -> rstrip c s = s.
Proof.
  unfold endswith, rstrip. intros H.
  change (string_rev (String c "")) with (String c "") in H.
  by rewrite (lstrip_char_id _ _ H), string_rev_involutive.
Qed.

Lemma completions_no_slash p :
  endswith (p +:+ "/chat/completions") "/" = false.
Proof.
  unfold endswith. rewrite string_rev_app.
  change (string_rev "/chat/completions") with "snoitelpmoc/tahc/".
  by rewrite string_app_cons.
Qed.

Lemma completion_url_suffix (configured : string) :
  exists p, completion_url configured = p +:+ "/chat/completions".
Proof.
  unfold completion_url.
  destruct (endswith (rstrip "/" configured) "/chat/completions") eqn:E1; simpl.
  - by apply endswith_spec in E1.
  - destruct (endswith (rstrip "/" configured) "/v1").
    + by eexists.
    + exists (rstrip "/" configured +:+ "/v1"). by rewrite string_app_assoc.
Qed.


(** Normalising an already normalised URL changes nothing: a stored
    completion URL can be configured back as the base URL. *)
Theorem completion_url_idempotent (configured : string) :
  completion_url (completion_url configured) = completion_url configured.
Proof.
  destruct (completion_url_suffix configured) as [p Hp].
  unfold completion_url at 1. rewrite Hp.
  rewrite (rstrip_id _ _ (completions_no_slash p)).
  assert (endswith (p +:+ "/chat/completions") "/chat/completions" = true) as ->;
    [|done].
  apply endswith_spec. by exists p.
Qed.

(** ** Sessions a sender may use *)

(** The session [send_message] works on is one of the sender's own
    list, as [get_queryset] gives it, and has the id asked for. *)
Lemma owned_session_listed d sid user s :
  owned_session d sid user = Some s ->
  s ∈ get_queryset d user /\ session_id s = sid.
Proof.
  unfold owned_session, get_queryset. intros Hf.
  apply find_some in Hf as [Hin Hc].
  apply andb_true_iff in Hc as [Hi Hu].
  apply String.eqb_eq in Hi. apply Z.eqb_eq in Hu.
  rewrite <- list_elem_of_In in Hin.
  split; [by apply list_elem_of_filter|done].
Qed.

(** No session of the sender's list has the id asked for exactly when
    the lookup of the view finds none. *)
Lemma owned_session_unlisted d sid user :
  owned_session d sid user = None
  <-> forall s, s ∈ get_queryset d user -> session_id s ≠ sid.
Proof.
  unfold owned_session, get_queryset. split.
  - intros Hn s Hs Hid. apply list_elem_of_filter in Hs as [Hu Hin].
    rewrite list_elem_of_In in Hin. apply (find_none _ _ Hn) in Hin.
    apply andb_false_iff in Hin as [H|H].
    + by apply String.eqb_neq in H.
    + by apply Z.eqb_neq in H.
  - intros Hall. destruct (List.find _ _) as [s|] eqn:Hf; [|done].
    apply find_some in Hf as [Hin Hc].
    apply andb_true_iff in Hc as [Hi Hu].
    apply String.eqb_eq in Hi. apply Z.eqb_eq in Hu.
    rewrite <- list_elem_of_In in Hin.
    destruct (Hall s); [|done]. by apply list_elem_of_filter.
Qed.

(** ** What a dispatch leaves behind *)

Section Frame.

Variable py_int : string -> option Z.

(** A dispatch answers at once, the world untouched, or raises in the
    selection of the provider, the world untouched, or reaches a
    provider for a session of the sender. *)
Lemma send_message_early_or_provider e req w :
  (exists resp, send_message py_int e req w = (inr resp, w)
                /\ exists error, resp_data resp = ErrorData error None
                /\ (resp_status resp = 400 \/ resp_status resp = 404))
  \/ (exists ex,
        send_message py_int e req w = (inl ex, w)
        /\ resolve_provider py_int (db w) (req_model_id req) (req_dify_config_id req)
           = inl ex)
  \/ exists sid msg session p,
       req_session_id req = Some sid /\ req_message req = Some msg
       /\ sid ≠ "" /\ msg ≠ ""
       /\ owned_session (db w) sid (req_user req) = Some session
       /\ resolve_provider py_int (db w) (req_model_id req) (req_dify_config_id req)
          = inr (Some p).
Proof.
  destruct (text_truthy (req_session_id req)) eqn:Ts.
  2:{ left. exists missing_input. rewrite send_message_missing; [|auto].
      split; [done|]. eexists. split; [done|by left]. }
  destruct (text_truthy (req_message req)) eqn:Tm.
  2:{ left. exists missing_input. rewrite send_message_missing; [|auto].
      split; [done|]. eexists. split; [done|by left]. }
  destruct (req_session_id req) as [sid|] eqn:Hsid; [|done].
  destruct (req_message req) as [msg|] eqn:Hmsg; [|done].
  simpl in Ts, Tm.
  apply negb_true_iff in Ts, Tm. apply String.eqb_neq in Ts, Tm.
  destruct (owned_session (db w) sid (req_user req)) as [session|] eqn:Hown.
  - destruct (resolve_provider py_int (db w) (req_model_id req)
                (req_dify_config_id req)) as [ex|[p|]] eqn:Hp.
    + right. left. exists ex.
      rewrite (send_message_run py_int e req w sid msg session); try done.
      by rewrite Hp.
    + right. right. by exists sid, msg, session, p.
    + left. exists no_provider.
      rewrite (send_message_run py_int e req w sid msg session); try done.
      rewrite Hp. split; [done|]. eexists. split; [done|by left].
  - left. exists session_missing.
    rewrite (send_message_no_session py_int e req w sid msg); try done.
    split; [done|]. eexists. split; [done|by right].
Qed.


Lemma dify_handler_reply ex w um am cid used st :
  (dify_handler ex w).1 ≠ inr (Response (ReplyData um am cid used) st).
Proof.
  unfold dify_handler.
  by destruct (is_Timeout ex), (is_RequestException ex).
Qed.


(** When the knowledge-base path returns a reply, the assistant's row is
    the last thing it has written. *)
Lemma dify_outcome_reply e session um w1 r um' am cid used st :
  (dify_outcome e session um w1 r).1
    = inr (Response (ReplyData um' am cid used) st) ->
  um' = um /\ st = 200
  /\ message_role am = "assistant"
  /\ message_session am = session_pk session
  /\ message_conversation_id am = column_text e cid
  /\ chat_messages (db (dify_outcome e session um w1 r).2)
     = chat_messages (db w1) ++ [am]
  /\ ai_configs (db (dify_outcome e session um w1 r).2) = ai_configs (db w1)
  /\ dify_configs (db (dify_outcome e session um w1 r).2) = dify_configs (db w1).
Proof.
  unfold dify_outcome, dify_reply.
  destruct r as [ex0|r]; [intros H; by apply dify_handler_reply in H|].
  destruct (Z.eqb (status_code r) 200); [|done].
  destruct (json r) as [ex0|data]; [intros H; by apply dify_handler_reply in H|].
  destruct (py_contains "conversation_id" data) as [ex0|has_id];
    [intros H; by apply dify_handler_reply in H|].
  destruct (has_id && negb (truthy (session_conversation_id session))).
  - destruct (py_getitem_str data "conversation_id") as [ex0|c0];
      [intros H; by apply dify_handler_reply in H|].
    simpl.
    destruct (py_get data "answer" (VStr "")) as [ex0|answer];
      [intros H; by apply dify_handler_reply in H|].
    destruct (py_get data "conversation_id" VNone) as [ex0|c];
      [intros H; by apply dify_handler_reply in H|].
    destruct (py_get data "message_id" VNone) as [ex0|mid];
      [intros H; by apply dify_handler_reply in H|].
    destruct (is_None answer); [intros H; by apply dify_handler_reply in H|].
    simpl. by intros [= <- <- <- _ <-].
  - destruct (py_get data "answer" (VStr "")) as [ex0|answer];
      [intros H; by apply dify_handler_reply in H|].
    destruct (py_get data "conversation_id" VNone) as [ex0|c];
      [intros H; by apply dify_handler_reply in H|].
    destruct (py_get data "message_id" VNone) as [ex0|mid];
      [intros H; by apply dify_handler_reply in H|].
    destruct (is_None answer); [intros H; by apply dify_handler_reply in H|].
    simpl. by intros [= <- <- <- _ <-].
Qed.

Lemma dify_reply_classify e session um data w2 :
  (dify_reply e session um data w2).2 = w2
  \/ exists am cid,
       (dify_reply e session um data w2).1
         = inr (Response (ReplyData um am cid "Dify Knowledge Base") 200)
       /\ message_role am = "assistant"
       /\ message_session am = session_pk session
       /\ (dify_reply e session um data w2).2
          = World (with_message (db w2) am) (log w2 ++ [EvCreate am]).
Proof.
  unfold dify_reply.
  destruct (py_get data "answer" (VStr "")) as [ex|answer];
    [left; apply dify_handler_world|].
  destruct (py_get data "conversation_id" VNone) as [ex|c];
    [left; apply dify_handler_world|].
  destruct (py_get data "message_id" VNone) as [ex|mid];
    [left; apply dify_handler_world|].
  destruct (is_None answer); [left; apply dify_handler_world|].
  right. by do 2 eexists.
Qed.

(** The knowledge-base path either writes nothing more than the user's
    row; or binds the session and then fails to insert the assistant's
    row, for want of an answer; or returns a reply after writing the
    assistant's row, with or without binding the session first. *)
Lemma dify_outcome_classify e session um w1 r :
  (dify_outcome e session um w1 r).2 = w1
  \/ (exists c0,
        truthy (session_conversation_id session) = false
        /\ (dify_outcome e session um w1 r).1 = inl null_content
        /\ (dify_outcome e session um w1 r).2
           = World (with_session (db w1) (with_conversation_id session c0))
                   (log w1 ++ [EvSave (with_conversation_id session c0)]))
  \/ exists am cid,
       (dify_outcome e session um w1 r).1
         = inr (Response (ReplyData um am cid "Dify Knowledge Base") 200)
       /\ message_role am = "assistant"
       /\ message_session am = session_pk session
       /\ ((dify_outcome e session um w1 r).2
             = World (with_message (db w1) am) (log w1 ++ [EvCreate am])
           \/ exists c0,
                truthy (session_conversation_id session) = false
                /\ (dify_outcome e session um w1 r).2
                   = World (with_message
                              (with_session (db w1) (with_conversation_id session c0))
                              am)
                           (log w1 ++ [EvSave (with_conversation_id session c0);
                                       EvCreate am])).
Proof.
  unfold dify_outcome.
  destruct r as [ex|r]; [left; apply dify_handler_world|].
  destruct (Z.eqb (status_code r) 200); [|by left].
  destruct (json r) as [ex|data]; [left; apply dify_handler_world|].
  destruct (py_contains "conversation_id" data) as [ex|has_id];
    [left; apply dify_handler_world|].
  destruct (has_id && negb (truthy (session_conversation_id session))) eqn:Hb.
  - apply andb_true_iff in Hb as [_ Hb]. apply negb_true_iff in Hb.
    destruct data as [|b|z|s|l|d]; simpl; try (by left).
    destruct (assoc_get d "conversation_id") as [c0|] eqn:Hc; [|by left].
    right. unfold dify_reply. simpl. rewrite Hc.
    destruct (assoc_get d "answer") as [answer|]; simpl.
    + destruct (is_None answer) eqn:Hn.
      * left. exists (column_text e c0). by destruct (assoc_get d "message_id").
      * right. destruct (assoc_get d "message_id");
          do 2 eexists; (split; [done|split; [done|split; [done|]]]);
          right; exists (column_text e c0); (split; [done|]); simpl;
          by rewrite <- app_assoc.
    + right. destruct (assoc_get d "message_id");
        do 2 eexists; (split; [done|split; [done|split; [done|]]]);
        right; exists (column_text e c0); (split; [done|]); simpl;
        by rewrite <- app_assoc.
  - destruct (dify_reply_classify e session um data w1)
      as [->|(am & cid & H1 & H2 & H3 & H4)]; [by left|].
    right. right. exists am, cid. repeat split; try done. by left.
Qed.

Lemma model_outcome_classify e session ai_config um w1 r :
  (model_outcome e session ai_config um w1 r).2 = w1
  /\ (exists error detail,
        (model_outcome e session ai_config um w1 r).1
          = Response (ErrorData error detail) 500)
  \/ exists am,
       (model_outcome e session ai_config um w1 r).1
         = Response (ReplyData um am (session_conversation_id session)
                       (ai_name ai_config)) 200
       /\ message_role am = "assistant"
       /\ message_session am = session_pk session
       /\ (model_outcome e session ai_config um w1 r).2
          = World (with_message (db w1) am) (log w1 ++ [EvCreate am]).
Proof.
  unfold model_outcome.
  destruct r as [ex|r]; [left; split; [done|by do 2 eexists]|].
  destruct (Z.eqb (status_code r) 200); [|left; split; [done|by do 2 eexists]].
  destruct (json r) as [ex|api_data]; [left; split; [done|by do 2 eexists]|].
  destruct (answer_content api_data) as [ex|answer];
    [left; split; [done|by do 2 eexists]|].
  destruct (py_get api_data "id" VNone) as [ex|mid];
    [left; split; [done|by do 2 eexists]|].
  destruct (is_None answer); [left; split; [done|by do 2 eexists]|].
  right. by eexists.
Qed.

(** The statuses the knowledge-base path answers with. *)
Lemma dify_outcome_status e session um w1 r resp :
  (dify_outcome e session um w1 r).1 = inr resp ->
  resp_status resp = 200 \/ resp_status resp = 408 \/ resp_status resp = 500.
Proof.
  assert (forall ex w0, (dify_handler ex w0).1 = inr resp ->
            resp_status resp = 200 \/ resp_status resp = 408
            \/ resp_status resp = 500) as Hh.
  { intros ex w0. unfold dify_handler.
    destruct (is_Timeout ex); [intros [= <-]; auto|].
    destruct (is_RequestException ex); [intros [= <-]; auto|done]. }
  unfold dify_outcome, dify_reply.
  destruct r as [ex0|r]; [apply Hh|].
  destruct (Z.eqb (status_code r) 200); [|intros [= <-]; auto].
  destruct (json r) as [ex0|data]; [apply Hh|].
  destruct (py_contains "conversation_id" data) as [ex0|has_id]; [apply Hh|].
  destruct (has_id && negb (truthy (session_conversation_id session))).
  - destruct (py_getitem_str data "conversation_id") as [ex0|cid]; [apply Hh|].
    simpl.
    destruct (py_get data "answer" (VStr "")) as [ex0|answer]; [apply Hh|].
    destruct (py_get data "conversation_id" VNone) as [ex0|c]; [apply Hh|].
    destruct (py_get data "message_id" VNone) as [ex0|mid]; [apply Hh|].
    destruct (is_None answer); [apply Hh|]. intros [= <-]. auto.
  - destruct (py_get data "answer" (VStr "")) as [ex0|answer]; [apply Hh|].
    destruct (py_get data "conversation_id" VNone) as [ex0|c]; [apply Hh|].
    destruct (py_get data "message_id" VNone) as [ex0|mid]; [apply Hh|].
    destruct (is_None answer); [apply Hh|]. intros [= <-]. auto.
Qed.

(** Every way a dispatch can end. *)
Lemma send_message_classify e req w :
  (exists resp, send_message py_int e req w = (inr resp, w)
                /\ exists error, resp_data resp = ErrorData error None)
  \/ (exists ex,
        send_message py_int e req w = (inl ex, w)
        /\ resolve_provider py_int (db w) (req_model_id req) (req_dify_config_id req)
           = inl ex)
  \/ exists sid msg session p,
       req_session_id req = Some sid /\ req_message req = Some msg
       /\ owned_session (db w) sid (req_user req) = Some session
       /\ resolve_provider py_int (db w) (req_model_id req) (req_dify_config_id req)
          = inr (Some p)
       /\ let um := user_row e (db w) session msg in
          let d1 := with_message (db w) um in
          let w1 := World d1 ((log w ++ [EvCreate um])
                              ++ [EvPost (provider_call p req session msg d1 um)]) in
          (send_message py_int e req w).2 = w1
          \/ (exists c c0,
                p = DifyProvider c
                /\ truthy (session_conversation_id session) = false
                /\ (send_message py_int e req w).1 = inl null_content
                /\ (send_message py_int e req w).2
                   = World (with_session d1 (with_conversation_id session c0))
                           (log w1 ++ [EvSave (with_conversation_id session c0)]))
          \/ exists am cid used,
               (send_message py_int e req w).1
                 = inr (Response (ReplyData um am cid used) 200)
               /\ message_role am = "assistant"
               /\ message_session am = session_pk session
               /\ ((send_message py_int e req w).2
                     = World (with_message d1 am) (log w1 ++ [EvCreate am])
                   \/ exists c0,
                        truthy (session_conversation_id session) = false
                        /\ (send_message py_int e req w).2
                           = World (with_message
                                      (with_session d1 (with_conversation_id session c0))
                                      am)
                                   (log w1 ++ [EvSave (with_conversation_id session c0);
                                               EvCreate am])).
Proof.
  destruct (send_message_early_or_provider e req w)
    as [(resp & H & error & He & _)
       |[(ex & H & Hex)
        |(sid & msg & session & p & Hsid & Hmsg & Hs & Hm & Hown & Hp)]].
  { left. exists resp. split; [done|by exists error]. }
  { right. left. by exists ex. }
  right. right. exists sid, msg, session, p. do 4 (split; [done|]).
  intros um d1 w1.
  rewrite (send_message_provider py_int e req w sid msg session p
             Hsid Hmsg Hs Hm Hown Hp).
  fold um. fold d1. fold w1.
  set (r := env_upstream e _).
  destruct p as [c|c]; simpl.
  - destruct (model_outcome_classify e session c um w1 r)
      as [[H _]|(am & H1 & H2 & H3 & H4)]; [by left|].
    right. right. exists am, (session_conversation_id session), (ai_name c).
    rewrite H1. repeat split; try done. by left.
  - destruct (dify_outcome_classify e session um w1 r)
      as [H|[(c0 & H1 & H2 & H3)|(am & cid & H1 & H2 & H3 & H4)]]; [by left| |].
    + right. left. by exists c, c0.
    + right. right. by exists am, cid, "Dify Knowledge Base".
Qed.


(** A dispatch never writes the provider configs.  It adds at most two
    rows to the message log, after the rows already there, and each of
    them belongs to the session the request names, a session of the
    sender. *)
Theorem dispatch_writes_own_session_only e req w :
  let w' := (send_message py_int e req w).2 in
  ai_configs (db w') = ai_configs (db w)
  /\ dify_configs (db w') = dify_configs (db w)
  /\ exists rows,
       chat_messages (db w') = chat_messages (db w) ++ rows
       /\ (length rows <= 2)%nat
       /\ forall m, m ∈ rows ->
            exists session,
              session ∈ get_queryset (db w) (req_user req)
              /\ req_session_id req = Some (session_id session)
              /\ message_session m = session_pk session.
Proof.
  intros w'. subst w'.
  assert (ai_configs (db w) = ai_configs (db w)
          /\ dify_configs (db w) = dify_configs (db w)
          /\ exists rows,
               chat_messages (db w) = chat_messages (db w) ++ rows
               /\ (length rows <= 2)%nat
               /\ forall m, m ∈ rows ->
                    exists session,
                      session ∈ get_queryset (db w) (req_user req)
                      /\ req_session_id req = Some (session_id session)
                      /\ message_session m = session_pk session) as Hsame.
  { split; [done|]. split; [done|]. exists []. rewrite app_nil_r.
    split; [done|]. split; [simpl; lia|]. intros m Hm. by apply elem_of_nil in Hm. }
  destruct (send_message_classify e req w)
    as [(resp & -> & _)
       |[(ex & -> & _)
        |(sid & msg & session & p & Hsid & Hmsg & Hown & Hp & H)]]; try done.
  destruct (owned_session_listed (db w) sid (req_user req) session Hown)
    as [Hin Hid].
  assert (forall m, m = user_row e (db w) session msg \/ message_session m = session_pk session ->
            exists session0,
              session0 ∈ get_queryset (db w) (req_user req)
              /\ req_session_id req = Some (session_id session0)
              /\ message_session m = session_pk session0) as Hrow.
  { intros m Hm. exists session. split; [done|]. split; [by rewrite Hsid, Hid|].
    by destruct Hm as [->|?]. }
  destruct H as [->|[(c & c0 & _ & _ & _ & ->)
                    |(am & cid & used & _ & _ & Ham & [->|(c0 & _ & ->)])]]; simpl.
  - split; [done|]. split; [done|]. eexists. split; [done|].
    split; [simpl; lia|]. intros m Hm.
    apply list_elem_of_singleton in Hm. apply Hrow. by left.
  - split; [done|]. split; [done|]. eexists. split; [done|].
    split; [simpl; lia|]. intros m Hm.
    apply list_elem_of_singleton in Hm. apply Hrow. by left.
  - split; [done|]. split; [done|]. exists [user_row e (db w) session msg; am].
    split; [by rewrite <- app_assoc|]. split; [simpl; lia|]. intros m Hm.
    apply elem_of_cons in Hm as [->|Hm]; [apply Hrow; by left|].
    apply list_elem_of_singleton in Hm as ->. apply Hrow. by right.
  - split; [done|]. split; [done|]. exists [user_row e (db w) session msg; am].
    split; [by rewrite <- app_assoc|]. split; [simpl; lia|]. intros m Hm.
    apply elem_of_cons in Hm as [->|Hm]; [apply Hrow; by left|].
    apply list_elem_of_singleton in Hm as ->. apply Hrow. by right.
Qed.

(** A reply is returned only after both rows are in the message log:
    the status is 200, the user's row and then the assistant's row are
    the two rows added, and both belong to the same session. *)
Theorem reply_persists_both_rows e req w um am cid used st :
  (send_message py_int e req w).1 = inr (Response (ReplyData um am cid used) st) ->
  st = 200
  /\ message_role um = "user"
  /\ message_role am = "assistant"
  /\ message_session am = message_session um
  /\ chat_messages (db (send_message py_int e req w).2)
     = chat_messages (db w) ++ [um; am].
Proof.
  intros Hr.
  destruct (send_message_classify e req w)
    as [(resp & H & error & He)
       |[(ex & H & _)
        |(sid & msg & session & p & Hsid & Hmsg & Hown & Hp & H)]].
  { rewrite H in Hr. simpl in Hr. injection Hr as ->. done. }
  { by rewrite H in Hr. }
  simpl in H.
  destruct H as [H|[(c & c0 & _ & _ & H & _)
                   |(am' & cid' & used' & H1 & H2 & H3 & H4)]].
  - exfalso. revert Hr H.
    destruct (send_message_early_or_provider e req w)
      as [(resp & H & error & He & _)
         |[(ex & H & _)
          |(sid' & msg' & session' & p' & Hsid' & Hmsg' & Hs & Hm & Hown' & Hp')]].
    { rewrite H. simpl. intros [= ->]. done. }
    { by rewrite H. }
    rewrite (send_message_provider py_int e req w sid' msg' session' p'
               Hsid' Hmsg' Hs Hm Hown' Hp').
    assert (sid' = sid) as -> by congruence.
    assert (msg' = msg) as -> by congruence.
    assert (session' = session) as -> by congruence.
    assert (p' = p) as -> by congruence.
    destruct p as [c|c]; simpl.
    + intros [= Hr] Hw. apply model_outcome_reply in Hr as (_ & _ & _ & Hr).
      rewrite Hr in Hw.
      apply (f_equal (fun x => length (chat_messages (db x)))) in Hw.
      simpl in Hw. rewrite !length_app in Hw. simpl in Hw. lia.
    + intros Hr Hw. apply dify_outcome_reply in Hr as (_ & _ & _ & _ & _ & Hr & _).
      rewrite Hw in Hr. simpl in Hr.
      apply (f_equal length) in Hr. rewrite !length_app in Hr. simpl in Hr. lia.
  - by rewrite H in Hr.
  - rewrite H1 in Hr. injection Hr as <- <- <- <- <-.
    split; [done|]. split; [done|]. split; [done|]. split; [done|].
    destruct H4 as [->|(c0 & _ & ->)]; simpl; by rewrite <- app_assoc.
Qed.

(** Without a reply no assistant row is written: the dispatch leaves the
    database as it was, or with the user's row added and nothing else;
    or, on the knowledge-base path alone, with the user's row added and
    the session bound, when the session held no conversation id and the
    reply came without an answer, so that the insert of the assistant's
    row failed after the session was saved. *)
Theorem no_reply_writes_no_assistant_row e req w :
  (forall um am cid used st,
      (send_message py_int e req w).1 ≠ inr (Response (ReplyData um am cid used) st)) ->
  db (send_message py_int e req w).2 = db w
  \/ exists session msg,
       owned_session (db w) (session_id session) (req_user req) = Some session
       /\ req_message req = Some msg
       /\ let d1 := with_message (db w) (user_row e (db w) session msg) in
          db (send_message py_int e req w).2 = d1
          \/ exists c cid,
               resolve_provider py_int (db w) (req_model_id req)
                 (req_dify_config_id req) = inr (Some (DifyProvider c))
               /\ truthy (session_conversation_id session) = false
               /\ (send_message py_int e req w).1 = inl null_content
               /\ db (send_message py_int e req w).2
                  = with_session d1 (with_conversation_id session cid).
Proof.
  intros Hno.
  destruct (send_message_classify e req w)
    as [(resp & -> & _)
       |[(ex & -> & _)
        |(sid & msg & session & p & Hsid & Hmsg & Hown & Hp & H)]];
    [by left|by left|].
  simpl in H.
  destruct (owned_session_listed _ _ _ _ Hown) as [_ Hid].
  destruct H as [->|[(c & c0 & -> & Ht & H1 & ->)|(am & cid & used & H1 & _)]].
  - right. exists session, msg. rewrite Hid. split; [done|]. split; [done|].
    by left.
  - right. exists session, msg. rewrite Hid. split; [done|]. split; [done|].
    right. by exists c, c0.
  - by destruct (Hno _ _ _ _ _ H1).
Qed.

(** A dispatch leaves alone every session but the one the request names
    for its sender: a row of another user, or with another session id,
    is the same row afterwards. *)
Theorem other_sessions_untouched e req w (i : nat) s :
  NoDup (session_pk <$> sessions (db w)) ->
  sessions (db w) !! i = Some s ->
  session_user s ≠ req_user req \/ req_session_id req ≠ Some (session_id s) ->
  sessions (db (send_message py_int e req w).2) !! i = Some s.
Proof.
  intros Hnd Hi Hother.
  destruct (send_message_classify e req w)
    as [(resp & -> & _)
       |[(ex & -> & _)
        |(sid & msg & session & p & Hsid & Hmsg & Hown & Hp & H)]]; try done.
  simpl in H.
  assert (forall c0 d,
            sessions d = sessions (db w) ->
            sessions (with_session d (with_conversation_id session c0)) !! i
            = Some s) as Hsaved.
  { intros c0 d Hd. simpl. rewrite Hd. change (map ?f ?l) with (f <$> l).
    rewrite list_lookup_fmap, Hi. simpl.
    destruct (Z.eqb (session_pk s) (session_pk session)) eqn:E; [|done].
    apply Z.eqb_eq in E. exfalso.
    pose proof (owned_session_elem _ _ _ _ Hown) as Hin.
    apply list_elem_of_lookup in Hin as [j Hj].
    assert (i = j) as ->.
    { eapply NoDup_lookup; [exact Hnd| |].
      - by rewrite list_lookup_fmap, Hi.
      - by rewrite list_lookup_fmap, Hj, E. }
    assert (s = session) as -> by congruence.
    unfold owned_session in Hown. apply find_some in Hown as [_ Hc].
    apply andb_true_iff in Hc as [Hsi Hu].
    apply String.eqb_eq in Hsi. apply Z.eqb_eq in Hu.
    destruct Hother as [H'|H']; [done|]. apply H'. by rewrite Hsid, Hsi. }
  destruct H as [->|[(c & c0 & _ & _ & _ & ->)
                    |(am & cid & used & _ & _ & _ & [->|(c0 & _ & ->)])]];
    try done.
  - by apply (Hsaved c0 (with_message (db w) (user_row e (db w) session msg))).
  - by apply (Hsaved c0 (with_message (db w) (user_row e (db w) session msg))).
Qed.

(** [AssistantSession.objects.get(session_id=..., user=request.user)]
    finds the row [owned_session] names, and raises [DoesNotExist] when
    there is none. *)
Lemma AssistantSession_get_run sid user w :
  AssistantSession_get sid user w
  = match owned_session (db w) sid user with
    | Some s => (inr s, w)
    | None => does_not_exist w
    end.
Proof.
  unfold AssistantSession_get, owned_session, bind, get_db, ret.
  by destruct (List.find _ _).
Qed.

(** A dispatch that found its session does not answer 404. *)
Lemma send_message_found e req w sid msg session :
  req_session_id req = Some sid ->
  req_message req = Some msg ->
  sid ≠ "" -> msg ≠ "" ->
  owned_session (db w) sid (req_user req) = Some session ->
  status_of (send_message py_int e req w).1 ≠ Some 404.
Proof.
  intros Hsid Hmsg Hs Hm Hown.
  destruct (resolve_provider py_int (db w) (req_model_id req)
              (req_dify_config_id req)) as [ex|[p|]] eqn:Hp.
  - rewrite (send_message_run py_int e req w sid msg session); try done.
    by rewrite Hp.
  - rewrite (send_message_provider py_int e req w sid msg session p); try done.
    destruct p as [c|c]; simpl.
    + match goal with
      | |- context [model_outcome e session c ?um ?w1 ?r] =>
          destruct (model_outcome_classify e session c um w1 r)
            as [[_ (error & detail & ->)]|(am & -> & _)]
      end; done.
    + match goal with
      | |- context [dify_outcome e session ?um ?w1 ?r] =>
          destruct (dify_outcome e session um w1 r) as [[ex|resp] w'] eqn:Hd
      end; [done|]. simpl.
      apply (f_equal fst) in Hd. simpl in Hd.
      apply dify_outcome_status in Hd as [-> | [-> | ->]]; done.
  - rewrite (send_message_run py_int e req w sid msg session); try done.
    by rewrite Hp.
Qed.

(** [send_message] answers 404 exactly when the sender's own list of
    sessions, as [AssistantSessionViewSet.get_queryset] gives it, holds
    no session with the id asked for, and then it answers that the
    session does not exist, with nothing written; the session its lookup
    returns otherwise is one of that list and has the id asked for. *)
Theorem session_found_iff_listed e req w sid msg :
  req_session_id req = Some sid ->
  req_message req = Some msg ->
  sid ≠ "" -> msg ≠ "" ->
  let unlisted :=
    forall s, s ∈ get_queryset (db w) (req_user req) -> session_id s ≠ sid in
  (status_of (send_message py_int e req w).1 = Some 404 <-> unlisted)
  /\ (unlisted -> send_message py_int e req w = (inr session_missing, w))
  /\ (forall s w',
        AssistantSession_get sid (req_user req) w = (inr s, w') ->
        w' = w
        /\ s ∈ get_queryset (db w) (req_user req)
        /\ session_id s = sid
        /\ status_of (send_message py_int e req w).1 ≠ Some 404).
Proof.
  intros Hsid Hmsg Hs Hm unlisted.
  pose proof (owned_session_unlisted (db w) sid (req_user req)) as Hiff.
  fold unlisted in Hiff.
  split; [split|split].
  - intros H404. apply Hiff.
    destruct (owned_session (db w) sid (req_user req)) as [session|] eqn:Hown;
      [|done].
    by destruct (send_message_found e req w sid msg session).
  - intros Hun. apply Hiff in Hun.
    by rewrite (send_message_no_session py_int e req w sid msg).
  - intros Hun. apply Hiff in Hun.
    by apply (send_message_no_session py_int e req w sid msg).
  - intros s w'. rewrite AssistantSession_get_run.
    destruct (owned_session (db w) sid (req_user req)) as [session|] eqn:Hown;
      [|done].
    intros [= <- <-]. split; [done|].
    destruct (owned_session_listed _ _ _ _ Hown) as [Hin Hid].
    split; [done|]. split; [done|].
    by apply (send_message_found e req w sid msg session).
Qed.

End Frame.

(** ** The two providers *)

Section Providers.

Variable py_int : string -> option Z.

(** The request the knowledge-base path sends: the URL is the configured
    one, trailing slashes stripped, followed by [/chat-messages]; the
    query is the user's text; the user is the sender's id in decimal; and
    the conversation id is part of the payload exactly when the session
    holds a non-empty one. *)
Theorem knowledge_base_request e req w sid msg session c :
  req_session_id req = Some sid ->
  req_message req = Some msg ->
  sid ≠ "" -> msg ≠ "" ->
  owned_session (db w) sid (req_user req) = Some session ->
  resolve_provider py_int (db w) (req_model_id req) (req_dify_config_id req)
    = inr (Some (DifyProvider c)) ->
  exists base n o p rest,
    dify_api_url c = base +:+ repeat_char "/" n
    /\ endswith base "/" = false
    /\ log (send_message py_int e req w).2
       = log w ++ [EvCreate (user_row e (db w) session msg); EvPost o] ++ rest
    /\ out_url o = base +:+ "/chat-messages"
    /\ out_json o = DifyBody p
    /\ dp_query p = msg
    /\ dp_user p = pretty (req_user req)
    /\ (truthy (session_conversation_id session) = true ->
        dp_conversation_id p = Some (session_conversation_id session))
    /\ (truthy (session_conversation_id session) = false ->
        dp_conversation_id p = None).
Proof.
  intros Hsid Hmsg Hs Hm Hown Hp.
  destruct (rstrip_spec "/" (dify_api_url c)) as (n & Hn & Hend).
  rewrite (send_message_provider py_int e req w sid msg session _
             Hsid Hmsg Hs Hm Hown Hp).
  set (um := user_row e (db w) session msg).
  set (o := provider_call (DifyProvider c) req session msg (with_message (db w) um) um).
  set (w1 := World (with_message (db w) um) ((log w ++ [EvCreate um]) ++ [EvPost o])).
  destruct (dify_outcome_grows e session um w1 (env_upstream e o))
    as (rows & evs & _ & Hl).
  exists (rstrip "/" (dify_api_url c)), n, o, (match out_json o with
                                               | DifyBody p => p
                                               | LLMBody _ => {| dp_inputs := []; dp_query := "";
                                                                 dp_user := ""; dp_response_mode := "";
                                                                 dp_conversation_id := None |}
                                               end), evs.
  split; [done|]. split; [done|].
  split; [rewrite Hl; simpl; by rewrite <- !app_assoc|].
  split; [done|]. split; [done|]. split; [done|]. split; [done|].
  simpl. split; by intros ->.
Qed.

(** The reply of the knowledge-base path to a 200 response with a JSON
    object.  When the answer of the body is not null the request
    succeeds: the content of the assistant's row is the answer, the empty
    string when the body has none; the conversation id returned is the
    body's, null when it has none, whatever the session holds; the row
    carries it, and the message id of the body; each is stored as a
    column of text stores it; and the row is added after the user's.
    When the answer is null the insert of the assistant's row fails and
    the [IntegrityError] leaves the view, no assistant row written.  In
    both cases a session that already holds a conversation id keeps
    it. *)
Theorem knowledge_base_reply e req w sid msg session c r fields :
  req_session_id req = Some sid ->
  req_message req = Some msg ->
  sid ≠ "" -> msg ≠ "" ->
  owned_session (db w) sid (req_user req) = Some session ->
  resolve_provider py_int (db w) (req_model_id req) (req_dify_config_id req)
    = inr (Some (DifyProvider c)) ->
  env_upstream e (dify_call req session msg c) = inr r ->
  status_code r = 200 ->
  json r = inr (VDict fields) ->
  let answer := default (VStr "") (assoc_get fields "answer") in
  let cid := default VNone (assoc_get fields "conversation_id") in
  let message_id := default VNone (assoc_get fields "message_id") in
  let um := user_row e (db w) session msg in
  (answer ≠ VNone ->
   exists am,
     (send_message py_int e req w).1
       = inr (Response (ReplyData um am cid "Dify Knowledge Base") 200)
     /\ message_content am = column_text e answer
     /\ message_conversation_id am = column_text e cid
     /\ message_message_id am = column_text e message_id
     /\ chat_messages (db (send_message py_int e req w).2)
        = chat_messages (db w) ++ [um; am])
  /\ (answer = VNone ->
      (send_message py_int e req w).1 = inl null_content
      /\ chat_messages (db (send_message py_int e req w).2)
         = chat_messages (db w) ++ [um])
  /\ (truthy (session_conversation_id session) = true ->
      sessions (db (send_message py_int e req w).2) = sessions (db w)).
Proof.
  intros Hsid Hmsg Hs Hm Hown Hp Hup Hst Hjs answer cid message_id um.
  subst answer cid message_id.
  rewrite (send_message_provider py_int e req w sid msg session _
             Hsid Hmsg Hs Hm Hown Hp).
  fold um. simpl. rewrite Hup. unfold dify_outcome. rewrite Hst, Hjs. simpl.
  assert (forall s w2,
            sessions (db w2) = sessions (db w) \/
            truthy (session_conversation_id session) = false ->
            chat_messages (db w2) = chat_messages (db w) ++ [um] ->
            let out := dify_reply e s um (VDict fields) w2 in
            (default (VStr "") (assoc_get fields "answer") ≠ VNone ->
             exists am,
               out.1 = inr (Response
                              (ReplyData um am
                                 (default VNone (assoc_get fields "conversation_id"))
                                 "Dify Knowledge Base") 200)
               /\ message_content am
                  = column_text e (default (VStr "") (assoc_get fields "answer"))
               /\ message_conversation_id am
                  = column_text e (default VNone (assoc_get fields "conversation_id"))
               /\ message_message_id am
                  = column_text e (default VNone (assoc_get fields "message_id"))
               /\ chat_messages (db out.2) = chat_messages (db w) ++ [um; am])
            /\ (default (VStr "") (assoc_get fields "answer") = VNone ->
                out.1 = inl null_content
                /\ chat_messages (db out.2) = chat_messages (db w) ++ [um])
            /\ (truthy (session_conversation_id session) = true ->
                sessions (db out.2) = sessions (db w))) as Hreply.
  { intros s w2 Hse Hrows out. subst out. unfold dify_reply. simpl.
    assert (truthy (session_conversation_id session) = true ->
            sessions (db w2) = sessions (db w)) as Hkeep.
    { intros Ht. destruct Hse as [Hse|Hse]; [done|congruence]. }
    destruct (assoc_get fields "conversation_id") as [c1|],
             (assoc_get fields "message_id") as [m1|]; simpl;
      (destruct (assoc_get fields "answer") as [answer|]; simpl;
         [destruct (is_None answer) eqn:Hn; [destruct answer; try done|]|]);
      (split; [|split]);
      try (intros Hne; eexists; (split; [reflexivity|]); simpl;
           (split; [done|]); (split; [done|]); (split; [done|]);
           by rewrite Hrows, <- app_assoc);
      try exact Hkeep; try done; try (by intros ->). }
  destruct (truthy (session_conversation_id session)) eqn:Ht.
  - rewrite andb_false_r. apply Hreply; [by left|done].
  - rewrite andb_true_r.
    destruct (assoc_get fields "conversation_id") as [c0|] eqn:Hc; simpl.
    + apply Hreply; [by right|done].
    + apply Hreply; [by left|done].
Qed.

(** The knowledge-base path does not handle a 200 response whose decoded
    body is not a JSON object: a [TypeError] or [AttributeError] leaves
    the view, after the user's row was written and nothing else. *)
Theorem knowledge_base_body_must_be_object e req w sid msg session c r data :
  req_session_id req = Some sid ->
  req_message req = Some msg ->
  sid ≠ "" -> msg ≠ "" ->
  owned_session (db w) sid (req_user req) = Some session ->
  resolve_provider py_int (db w) (req_model_id req) (req_dify_config_id req)
    = inr (Some (DifyProvider c)) ->
  env_upstream e (dify_call req session msg c) = inr r ->
  status_code r = 200 ->
  json r = inr data ->
  not_object data ->
  (exists ex,
      (send_message py_int e req w).1 = inl ex
      /\ (exn_cls ex = TypeError \/ exn_cls ex = AttributeError))
  /\ db (send_message py_int e req w).2
     = with_message (db w) (user_row e (db w) session msg).
Proof.
  intros Hsid Hmsg Hs Hm Hown Hp Hup Hst Hjs Hno.
  rewrite (send_message_provider py_int e req w sid msg session _
             Hsid Hmsg Hs Hm Hown Hp).
  simpl. rewrite Hup. unfold dify_outcome. rewrite Hst, Hjs. simpl.
  destruct data as [|b|z|s|l|d]; simpl; try done;
    try (split; [eexists; split; [done|by left]|done]).
  - destruct (str_contains s "conversation_id"
              && negb (truthy (session_conversation_id session))); simpl;
      (split; [eexists; split; [done|auto]|done]).
  - destruct (existsb (value_is_str "conversation_id") l
              && negb (truthy (session_conversation_id session))); simpl;
      (split; [eexists; split; [done|auto]|done]).
Qed.

(** The model path, too, needs a JSON object in a 200 response; but
    there the failure is answered: status 500, and only the user's row
    is written. *)
Theorem model_body_must_be_object e req w sid msg session c r data :
  req_session_id req = Some sid ->
  req_message req = Some msg ->
  sid ≠ "" -> msg ≠ "" ->
  owned_session (db w) sid (req_user req) = Some session ->
  resolve_provider py_int (db w) (req_model_id req) (req_dify_config_id req)
    = inr (Some (ModelProvider c)) ->
  let um := user_row e (db w) session msg in
  env_upstream e (provider_call (ModelProvider c) req session msg
                    (with_message (db w) um) um) = inr r ->
  status_code r = 200 ->
  json r = inr data ->
  not_object data ->
  (exists error,
      (send_message py_int e req w).1 = inr (Response (ErrorData error None) 500))
  /\ db (send_message py_int e req w).2 = with_message (db w) um.
Proof.
  intros Hsid Hmsg Hs Hm Hown Hp um Hup Hst Hjs Hno.
  rewrite (send_message_provider py_int e req w sid msg session _
             Hsid Hmsg Hs Hm Hown Hp).
  fold um. simpl. simpl in Hup. rewrite Hup. unfold model_outcome.
  rewrite Hst, Hjs. simpl.
  destruct data as [|b|z|s|l|d]; simpl; try done;
    try (split; [by eexists|done]).
  - unfold answer_content. simpl.
    destruct (str_contains s "choices"); simpl; (split; [by eexists|done]).
  - unfold answer_content. simpl.
    destruct (existsb (value_is_str "choices") l); simpl;
      (split; [by eexists|done]).
Qed.

End Providers.

(** ** The window of prior messages *)

Lemma StronglySorted_weaken {A} (R1 R2 : relation A) (l : list A) :
  (forall x y, R1 x y -> R2 x y) ->
  StronglySorted R1 l -> StronglySorted R2 l.
Proof.
  intros Himp. induction 1 as [|x l Hl IH Hx]; constructor; [done|].
  eapply Forall_impl; [exact Hx|]. intros y. apply Himp.
Qed.

Lemma strictly_sorted_same_time (l : list ChatMessage) x y :
  StronglySorted (fun a b => message_created_at a < message_created_at b) l ->
  x ∈ l -> y ∈ l ->
  message_created_at x = message_created_at y -> x = y.
Proof.
  induction 1 as [|z l Hl IH Hz]; intros Hx Hy Heq.
  - by apply elem_of_nil in Hx.
  - rewrite Forall_forall in Hz.
    apply elem_of_cons in Hx as [->|Hx], Hy as [->|Hy]; [done| | |by apply IH].
    + specialize (Hz y Hy). simpl in Hz. lia.
    + specialize (Hz x Hx). simpl in Hz. lia.
Qed.

(** When the rows of the session are stored in strictly increasing
    creation time, the window is exactly the last ten of them, in the
    order they are stored. *)
Theorem window_is_last_ten e d session message :
  StronglySorted (fun a b => message_created_at a < message_created_at b)
    (prior_messages d session) ->
  let um := user_row e d session message in
  history_messages (with_message d um) session um
  = drop (length (prior_messages d session) - 10) (prior_messages d session).
Proof.
  intros Hstrict um. rewrite history_messages_eq.
  pose proof (candidates_after_insert e d session message) as Hperm.
  pose proof (candidates_sorted (with_message d um) session um) as Hsort.
  fold um in Hperm.
  set (C := candidates (with_message d um) session um) in *.
  assert (reverse C = prior_messages d session) as Hrev.
  { apply (StronglySorted_unique_strong
             (fun a b => message_created_at a <= message_created_at b)).
    - intros x1 x2 H1 H2 Hle Hge.
      apply (strictly_sorted_same_time (prior_messages d session)); try done.
      + rewrite elem_of_reverse in H1. by rewrite <- Hperm.
      + lia.
    - by apply (StronglySorted_reverse newest_first).
    - eapply StronglySorted_weaken; [|exact Hstrict]. simpl. intros; lia.
    - by rewrite reverse_Permutation. }
  rewrite reverse_take, Hrev.
  by rewrite <- Hrev, length_reverse, Hrev.
Qed.

(** A session with at most ten prior rows has all of them forwarded,
    each once. *)
Theorem short_history_forwarded_whole e d session message :
  (length (prior_messages d session) <= 10)%nat ->
  let um := user_row e d session message in
  history_messages (with_message d um) session um ≡ₚ prior_messages d session.
Proof.
  intros Hlen um. rewrite history_messages_eq.
  pose proof (candidates_after_insert e d session message) as Hperm.
  fold um in Hperm.
  rewrite take_ge; [by rewrite reverse_Permutation|].
  by rewrite Hperm.
Qed.

(** ** Binding a session to a conversation *)

Section Binding.

Variable py_int : string -> option Z.

Lemma owned_session_after_binding d d' sid user session cid :
  owned_session d sid user = Some session ->
  sessions d' = sessions (with_session d (with_conversation_id session cid)) ->
  owned_session d' sid user = Some (with_conversation_id session cid).
Proof.
  unfold owned_session. intros Hf ->. simpl.
  pose proof (find_some _ _ Hf) as [_ Hmatch].
  induction (sessions d) as [|r l IH]; [done|]. simpl in *.
  destruct (Z.eqb (session_pk r) (session_pk session)) eqn:E.
  - simpl. by rewrite Hmatch.
  - destruct (String.eqb (session_id r) sid && Z.eqb (session_user r) user) eqn:Hr.
    + injection Hf as ->. by rewrite Z.eqb_refl in E.
    + by apply IH.
Qed.

Lemma resolve_provider_same_configs d d' model_id dify_config_id :
  ai_configs d' = ai_configs d ->
  dify_configs d' = dify_configs d ->
  resolve_provider py_int d' model_id dify_config_id
  = resolve_provider py_int d model_id dify_config_id.
Proof.
  intros Ha Hd. unfold resolve_provider, explicit_model, explicit_dify.
  by rewrite Ha, Hd.
Qed.

(** The first reply that carries a conversation id binds a session that
    had none: the session holds the id as a column of text stores it,
    the text itself when it is text, whether or not the reply is then
    persisted.  When the stored id is not empty it is what the next
    dispatch on that session finds and sends to the knowledge base: the
    conversation is continued. *)
Theorem first_reply_binds_and_next_call_continues
    e req w sid msg session c r fields cid :
  req_session_id req = Some sid ->
  req_message req = Some msg ->
  sid ≠ "" -> msg ≠ "" ->
  owned_session (db w) sid (req_user req) = Some session ->
  resolve_provider py_int (db w) (req_model_id req) (req_dify_config_id req)
    = inr (Some (DifyProvider c)) ->
  truthy (session_conversation_id session) = false ->
  env_upstream e (dify_call req session msg c) = inr r ->
  status_code r = 200 ->
  json r = inr (VDict fields) ->
  assoc_get fields "conversation_id" = Some cid ->
  let w' := (send_message py_int e req w).2 in
  let stored := column_text e cid in
  let session' := with_conversation_id session stored in
  owned_session (db w') sid (req_user req) = Some session'
  /\ (truthy stored = true ->
      forall e2 msg2, msg2 ≠ "" ->
        let req2 := {| req_user := req_user req;
                       req_session_id := Some sid;
                       req_message := Some msg2;
                       req_model_id := req_model_id req;
                       req_dify_config_id := req_dify_config_id req |} in
        exists p rest,
          log (send_message py_int e2 req2 w').2
          = log w' ++ [EvCreate (user_row e2 (db w') session' msg2);
                       EvPost (dify_call req2 session' msg2 c)] ++ rest
          /\ out_json (dify_call req2 session' msg2 c) = DifyBody p
          /\ dp_conversation_id p = Some stored).
Proof.
  intros Hsid Hmsg Hs Hm Hown Hp Ht Hup Hst Hjs Hc w' stored session'.
  assert (sessions (db w')
          = sessions (with_session (db w) session')
          /\ ai_configs (db w') = ai_configs (db w)
          /\ dify_configs (db w') = dify_configs (db w)) as (Hse & Hai & Hdi).
  { subst w'.
    rewrite (send_message_provider py_int e req w sid msg session _
               Hsid Hmsg Hs Hm Hown Hp).
    simpl. rewrite Hup. unfold dify_outcome. rewrite Hst, Hjs. simpl.
    rewrite Ht, Hc. simpl. unfold dify_reply. simpl. rewrite Hc.
    destruct (assoc_get fields "answer") as [answer|]; simpl;
      [destruct (is_None answer)|];
      by destruct (assoc_get fields "message_id"). }
  assert (owned_session (db w') sid (req_user req) = Some session') as Hown'.
  { by apply (owned_session_after_binding (db w)). }
  split; [done|].
  intros Hcid e2 msg2 Hm2 req2.
  assert (resolve_provider py_int (db w') (req_model_id req2) (req_dify_config_id req2)
          = inr (Some (DifyProvider c))) as Hp'.
  { simpl. by rewrite (resolve_provider_same_configs (db w)). }
  rewrite (send_message_provider py_int e2 req2 w' sid msg2 session' _
             eq_refl eq_refl Hs Hm2 Hown' Hp').
  set (um2 := user_row e2 (db w') session' msg2).
  set (o := provider_call (DifyProvider c) req2 session' msg2 (with_message (db w') um2) um2).
  destruct (dify_outcome_grows e2 session' um2
              (World (with_message (db w') um2) ((log w' ++ [EvCreate um2]) ++ [EvPost o]))
              (env_upstream e2 o)) as (rows & evs & _ & Hl).
  eexists _, evs. split; [rewrite Hl; simpl; by rewrite <- !app_assoc|].
  split; [done|]. simpl. by rewrite Hcid.
Qed.

End Binding.

(** * Examples for the further properties *)

Lemma session_found_iff_listed_witness :
  let req := {| req_user := 8; req_session_id := Some "s-1";
                req_message := Some "hello";
                req_model_id := IdNone; req_dify_config_id := IdInt 5 |} in
  get_queryset (db busy) 8 = [guest_thread]
  /\ send_message decimal_int (answering timed_out) req busy
     = (inr session_missing, busy).
Proof.
  intros req. split; [reflexivity|].
  destruct (session_found_iff_listed decimal_int (answering timed_out) req busy
              "s-1" "hello") as (_ & H & _);
    [reflexivity|reflexivity|discriminate|discriminate|].
  apply H. intros s Hs.
  change (get_queryset (db busy) (req_user req)) with [guest_thread] in Hs.
  apply list_elem_of_singleton in Hs. rewrite Hs. discriminate.
Defined.


Lemma reply_persists_both_rows_witness :
  let e := answering (ok_body (VDict [])) in
  let um := user_row e (db (installation VNone)) (thread VNone) "hello" in
  let am := new_row (env_later e) (with_message (db (installation VNone)) um)
              (thread VNone) "assistant" (VStr "") VNone VNone in
  chat_messages (db (send_message decimal_int e (ask (IdInt 1) IdNone)
                       (installation VNone)).2)
  = [] ++ [um; am].
Proof.
  intros e um am.
  apply (reply_persists_both_rows decimal_int e (ask (IdInt 1) IdNone)
           (installation VNone) um am VNone "gpt" 200).
  reflexivity.
Defined.

(** A reply of the knowledge base without an answer: the session is
    bound, and the assistant's row is not written. *)
Lemma no_reply_writes_no_assistant_row_witness :
  let e := answering (ok_body (VDict [("answer", VNone);
                                      ("conversation_id", VStr "abc")])) in
  let w := installation VNone in
  let sent := send_message decimal_int e (ask IdNone (IdInt 5)) w in
  sessions (db sent.2) = [thread (VStr "abc")]
  /\ chat_messages (db sent.2) = [user_row e (db w) (thread VNone) "hello"]
  /\ (db sent.2 = db w
      \/ exists session msg,
           owned_session (db w) (session_id session) 7 = Some session
           /\ Some "hello" = Some msg
           /\ let d1 := with_message (db w) (user_row e (db w) session msg) in
              db sent.2 = d1
              \/ exists c cid,
                   resolve_provider decimal_int (db w) IdNone (IdInt 5)
                   = inr (Some (DifyProvider c))
                   /\ truthy (session_conversation_id session) = false
                   /\ sent.1 = inl null_content
                   /\ db sent.2 = with_session d1 (with_conversation_id session cid)).
Proof.
  intros e w sent. split; [reflexivity|]. split; [reflexivity|].
  apply (no_reply_writes_no_assistant_row decimal_int e (ask IdNone (IdInt 5)) w).
  intros um am cid used st H. vm_compute in H. discriminate H.
Defined.

Lemma other_sessions_untouched_witness :
  sessions (db busy) !! 1%nat = Some guest_thread
  /\ sessions (db (send_message decimal_int (answering (kb_reply "abc"))
                     (ask IdNone (IdInt 5)) busy).2) !! 1%nat
     = Some guest_thread.
Proof.
  split; [reflexivity|].
  apply (other_sessions_untouched decimal_int (answering (kb_reply "abc"))
           (ask IdNone (IdInt 5)) busy 1 guest_thread).
  - apply NoDup_cons. split; [|apply NoDup_singleton].
    intros H. apply list_elem_of_singleton in H. discriminate H.
  - reflexivity.
  - left. discriminate.
Defined.

Lemma knowledge_base_request_witness :
  exists base n o p rest,
    dify_api_url kb = base +:+ repeat_char "/" n
    /\ endswith base "/" = false
    /\ log (send_message decimal_int (answering timed_out) (ask IdNone (IdInt 5))
              (installation (VStr "c-9"))).2
       = [] ++ [EvCreate (user_row (answering timed_out)
                            (db (installation (VStr "c-9")))
                            (thread (VStr "c-9")) "hello");
                EvPost o] ++ rest
    /\ out_url o = base +:+ "/chat-messages"
    /\ out_json o = DifyBody p
    /\ dp_query p = "hello"
    /\ dp_user p = pretty (7 : Z)
    /\ (truthy (VStr "c-9") = true -> dp_conversation_id p = Some (VStr "c-9"))
    /\ (truthy (VStr "c-9") = false -> dp_conversation_id p = None).
Proof.
  apply (knowledge_base_request decimal_int (answering timed_out)
           (ask IdNone (IdInt 5)) (installation (VStr "c-9"))
           "s-1" "hello" (thread (VStr "c-9")) kb);
    [reflexivity|reflexivity|discriminate|discriminate|reflexivity|reflexivity].
Defined.

Lemma knowledge_base_reply_witness :
  let e := answering (kb_reply "xyz") in
  let w := installation (VStr "abc") in
  let um := user_row e (db w) (thread (VStr "abc")) "hello" in
  let sent := send_message decimal_int e (ask IdNone (IdInt 5)) w in
  VStr "hi" ≠ VNone
  /\ exists am,
       sent.1 = inr (Response (ReplyData um am (VStr "xyz") "Dify Knowledge Base") 200)
       /\ message_content am = VStr "hi"
       /\ message_conversation_id am = VStr "xyz"
       /\ message_message_id am = VStr "m-1"
       /\ chat_messages (db sent.2) = [] ++ [um; am].
Proof.
  intros e w um sent. split; [discriminate|].
  destruct (knowledge_base_reply decimal_int e (ask IdNone (IdInt 5)) w
              "s-1" "hello" (thread (VStr "abc")) kb
              {| status_code := 200; text := "(body)";
                 json := inr (VDict [("answer", VStr "hi");
                                     ("conversation_id", VStr "xyz");
                                     ("message_id", VStr "m-1")]) |}
              [("answer", VStr "hi"); ("conversation_id", VStr "xyz");
               ("message_id", VStr "m-1")])
    as (H & _);
    [reflexivity|reflexivity|discriminate|discriminate|reflexivity|reflexivity
    |reflexivity|reflexivity|reflexivity|].
  apply H. discriminate.
Defined.

Lemma knowledge_base_body_must_be_object_witness :
  not_object (VList [])
  /\ db (send_message decimal_int (answering (ok_body (VList [])))
           (ask IdNone (IdInt 5)) (installation VNone)).2
     = with_message (db (installation VNone))
         (user_row (answering (ok_body (VList []))) (db (installation VNone))
            (thread VNone) "hello").
Proof.
  split; [exact I|].
  apply (knowledge_base_body_must_be_object decimal_int
           (answering (ok_body (VList []))) (ask IdNone (IdInt 5))
           (installation VNone) "s-1" "hello" (thread VNone) kb
           {| status_code := 200; text := "(body)"; json := inr (VList []) |}
           (VList []));
    [reflexivity|reflexivity|discriminate|discriminate|reflexivity|reflexivity
    |reflexivity|reflexivity|reflexivity|exact I].
Defined.

Lemma model_body_must_be_object_witness :
  not_object (VStr "ok")
  /\ exists error,
       (send_message decimal_int (answering (ok_body (VStr "ok")))
          (ask (IdInt 1) IdNone) (installation VNone)).1
       = inr (Response (ErrorData error None) 500).
Proof.
  split; [exact I|].
  apply (model_body_must_be_object decimal_int
           (answering (ok_body (VStr "ok"))) (ask (IdInt 1) IdNone)
           (installation VNone) "s-1" "hello" (thread VNone) gpt
           {| status_code := 200; text := "(body)"; json := inr (VStr "ok") |}
           (VStr "ok"));
    [reflexivity|reflexivity|discriminate|discriminate|reflexivity|reflexivity
    |reflexivity|reflexivity|reflexivity|exact I].
Defined.

Lemma window_is_last_ten_witness :
  let e := answering timed_out in
  let um := user_row e (db busy) (thread VNone) "hello" in
  history_messages (with_message (db busy) um) (thread VNone) um
  = drop (length (prior_messages (db busy) (thread VNone)) - 10)
         (prior_messages (db busy) (thread VNone)).
Proof.
  apply (window_is_last_ten (answering timed_out) (db busy) (thread VNone) "hello").
  change (prior_messages (db busy) (thread VNone))
    with [stored 1 1 10 "user" "ping"; stored 3 1 20 "assistant" "pong"].
  repeat constructor.
Defined.

Lemma short_history_forwarded_whole_witness :
  let e := answering timed_out in
  let um := user_row e (db busy) (thread VNone) "hello" in
  history_messages (with_message (db busy) um) (thread VNone) um
  ≡ₚ prior_messages (db busy) (thread VNone).
Proof.
  apply (short_history_forwarded_whole (answering timed_out) (db busy)
           (thread VNone) "hello").
  change (prior_messages (db busy) (thread VNone))
    with [stored 1 1 10 "user" "ping"; stored 3 1 20 "assistant" "pong"].
  simpl. lia.
Defined.

(** A reply whose conversation id is the number 123: the session is
    bound to the text the column stores for it. *)
Lemma first_reply_binds_and_next_call_continues_witness :
  let body := VDict [("answer", VStr "hi"); ("conversation_id", VInt 123)] in
  truthy VNone = false
  /\ owned_session
       (db (send_message decimal_int (answering (ok_body body))
              (ask IdNone (IdInt 5)) (installation VNone)).2)
       "s-1" 7
     = Some (thread (VStr "123")).
Proof.
  intros body. split; [reflexivity|].
  apply (first_reply_binds_and_next_call_continues decimal_int
           (answering (ok_body body)) (ask IdNone (IdInt 5)) (installation VNone)
           "s-1" "hello" (thread VNone) kb
           {| status_code := 200; text := "(body)"; json := inr body |}
           [("answer", VStr "hi"); ("conversation_id", VInt 123)]
           (VInt 123));
    [reflexivity|reflexivity|discriminate|discriminate|reflexivity|reflexivity
    |reflexivity|reflexivity|reflexivity|reflexivity|reflexivity].
Defined.
